(** * The JSON:API request pipeline of [src/request.ts]

    A shallow embedding of the [Request] class: the four verb methods,
    the fetch-with-logging routine, the fetch and classification steps and
    the two error classes, followed by the properties the specification
    states about them.

    Objects that the source mutates or hands around by reference (the
    caller's options object, the response object) live in a store and are
    named by locations.  Calls to the collaborators of the pipeline (the
    logger, the middleware hooks, the transport, the body reads of a
    response) are recorded, in order, in a trace.  [async]/[await] is
    sequential for one call, so a rejected promise is a [throw] at the
    [await] and a resolved one is a value. *)

From Stdlib Require Import ZArith String List.
From stdpp Require Import base gmap strings list.

Local Open Scope Z_scope.
Local Open Scope string_scope.
Local Open Scope list_scope.

(** ** Data model *)

(** Locations of objects in the store. *)
Definition loc := positive.

(** A parsed JSON document.  An object keeps its members in order.  The
    pipeline never looks inside a number, for which an integer stands. *)
#[warnings="-register-all"] Inductive Json : Type :=
| JNull
| JBool (b : bool)
| JNumber (n : Z)
| JString (s : string)
| JArray (items : list Json)
| JObject (members : list (string * Json)).

(** Whether an object has a member named [k]. *)
Fixpoint has_member (k : string) (members : list (string * Json)) : bool :=
  match members with
  | [] => false
  | (k', _) :: rest => if String.eqb k' k then true else has_member k rest
  end.

(** JavaScript's [Error]: what the hooks, the transport and the body read
    throw. *)
Module Error.
Record t := mk { message : string; stack : option string }.
End Error.

(** [RequestInit], the options object of a call.  [method] and [body] are
    the members the pipeline writes; [headers] and [others] stand for the
    members it never touches (credentials, mode, cache, ...).  [None] is an
    absent ([undefined]) member. *)
Module RequestInit.
Record t := mk {
  method : option string;
  body : option string;
  headers : list (string * string);
  others : list (string * string)
}.

(** [options.method = m] *)
Definition set_method (m : string) (o : t) : t :=
  mk (Some m) (body o) (headers o) (others o).

(** [options.body = b] *)
Definition set_body (b : string) (o : t) : t :=
  mk (method o) (Some b) (headers o) (others o).
End RequestInit.

(** The transport's [Response]: its read-only status and the result of a
    JSON-decoding read of (a clone of) its body, which either rejects with
    an error or resolves with the parsed document. *)
Module Response.
Record t := mk { status : Z; json : Error.t + Json }.
End Response.

(** [JsonapiResponse]: a response object in the store, that is a
    [Response] with the [jsonPayload] member the pipeline attaches
    ([None] while it is absent). *)
Module JsonapiResponse.
Record t := mk { response : Response.t; jsonPayload : option Json }.

(** [(<any>response).jsonPayload = json] *)
Definition set_jsonPayload (json : Json) (r : t) : t :=
  mk (response r) (Some json).
End JsonapiResponse.

(** [a || b] on an optional string: [undefined] and the empty string are
    falsy. *)
Definition or_default (a : option string) (b : string) : string :=
  match a with
  | Some EmptyString => b
  | Some s => s
  | None => b
  end.

(** [class RequestError extends Error] *)
Module RequestError.
Record t := mk {
  message : string;
  stack : option string;
  url : string;
  options : loc;
  originalError : Error.t
}.

(** The constructor: [super(message)], then the four assignments. *)
Definition new (message : string) (url : string) (options : loc)
    (originalError : Error.t) : t :=
  mk message (Error.stack originalError) url options originalError.
End RequestError.

(** [class ResponseError extends Error] *)
Module ResponseError.
Record t := mk {
  response : option loc;
  message : string;
  originalError : option Error.t
}.

(** The constructor: [super(message || "Invalid Response")], then the two
    assignments.  [message] and [originalError] are optional parameters. *)
Definition new (response : option loc) (message : option string)
    (originalError : option Error.t) : t :=
  mk response (or_default message "Invalid Response") originalError.
End ResponseError.

(** What a call can throw: one of the two typed errors, or a [TypeError] of
    the runtime (a property access on [null] or [undefined]). *)
Inductive Thrown : Type :=
| TypeError (message : string)
| ThrowRequestError (e : RequestError.t)
| ThrowResponseError (e : ResponseError.t).

(** The observable calls of the pipeline on its collaborators. *)
Inductive Event : Type :=
| LoggerInfo (message : string)
| LoggerDebug (message : string)
| BeforeFetch (url : string) (options : RequestInit.t)
| Fetch (url : string) (options : RequestInit.t)
| AfterFetch (response : loc) (json : Json)
| BodyJson (response : loc)
| BodyText (response : loc).

(** The store and the trace. *)
Record World := mkWorld {
  optionsHeap : gmap loc RequestInit.t;
  responseHeap : gmap loc JsonapiResponse.t;
  trace : list Event
}.

(** ** The monad of the pipeline: state and exceptions *)

Inductive Result (A : Type) : Type :=
| Ok (a : A)
| Throw (t : Thrown).
Arguments Ok {A} a.
Arguments Throw {A} t.

Definition M (A : Type) : Type := World -> Result A * World.

Definition ret {A} (a : A) : M A := fun w => (Ok a, w).

Definition throw {A} (t : Thrown) : M A := fun w => (Throw t, w).

Definition bind {A B} (m : M A) (k : A -> M B) : M B :=
  fun w =>
    match m w with
    | (Ok a, w') => k a w'
    | (Throw t, w') => (Throw t, w')
    end.

Notation "x <- m ;; k" := (bind m (fun x => k))
  (at level 100, m at next level, right associativity).
Notation "m ;; k" := (bind m (fun _ => k))
  (at level 100, right associativity).

(** An expression that may throw, as a step of the pipeline. *)
Definition lift {A} (r : Result A) : M A := fun w => (r, w).

(** Record a call on a collaborator. *)
Definition emit (e : Event) : M unit :=
  fun w => (Ok tt, mkWorld (optionsHeap w) (responseHeap w) (trace w ++ [e])).

(** Read the options object behind a reference.  A reference to nothing
    stands for a caller that passed [undefined]: the access is a
    [TypeError]. *)
Definition read_options (options : loc) : M RequestInit.t :=
  fun w =>
    match optionsHeap w !! options with
    | Some o => (Ok o, w)
    | None => (Throw (TypeError "options is undefined"), w)
    end.

(** Overwrite, in place, the options object behind a reference. *)
Definition write_options (options : loc) (o : RequestInit.t) : M unit :=
  fun w =>
    (Ok tt, mkWorld (<[options := o]> (optionsHeap w)) (responseHeap w) (trace w)).

Definition read_response (response : loc) : M JsonapiResponse.t :=
  fun w =>
    match responseHeap w !! response with
    | Some r => (Ok r, w)
    | None => (Throw (TypeError "response is undefined"), w)
    end.

Definition write_response (response : loc) (r : JsonapiResponse.t) : M unit :=
  fun w =>
    (Ok tt, mkWorld (optionsHeap w) (<[response := r]> (responseHeap w)) (trace w)).

(** The transport resolved: its response is a new object of the store. *)
Definition alloc_response (r : Response.t) : M loc :=
  fun w =>
    let l := fresh (dom (responseHeap w)) in
    (Ok l, mkWorld (optionsHeap w)
                   (<[l := JsonapiResponse.mk r None]> (responseHeap w))
                   (trace w)).

(** [json.data === undefined] for a parsed document [json].  Reading a
    property of [null] is a [TypeError]; a primitive or an array has no
    [data] property; an object has one exactly when [data] is a member (a
    parsed member is never [undefined]). *)
Definition data_undefined (json : Json) : Result bool :=
  match json with
  | JNull => Throw (TypeError "Cannot read property 'data' of null")
  | JObject members => Ok (negb (has_member "data" members))
  | _ => Ok true
  end.

(** [xs.indexOf(x)], counting from [i]. *)
Fixpoint indexOf_from (i : Z) (xs : list Z) (x : Z) : Z :=
  match xs with
  | [] => -1
  | y :: ys => if Z.eqb y x then i else indexOf_from (i + 1) ys x
  end.

Definition indexOf (xs : list Z) (x : Z) : Z := indexOf_from 0 xs x.

(** The test of the DELETE short-circuit:
    [requestOptions.method === "DELETE" &&
     [202, 204, 200].indexOf(response.status) > -1] *)
Definition wasDelete (requestOptions : RequestInit.t) (status : Z) : bool :=
  match RequestInit.method requestOptions with
  | Some m => String.eqb m "DELETE"
  | None => false
  end && (indexOf [202; 204; 200] status >? -1)%Z.

(** ** The collaborators *)

(** The middleware stack of [./middleware-stack], taken as a parameter of
    the pipeline.  Both hooks are synchronous and may throw to reject the
    call.  [beforeFetch] is handed the mutable options object (a
    before-filter typically adds headers to it): it returns the object as
    it left it, together with the error it threw, if any.  [afterFetch] is
    handed the response, whose status and body are read-only, and the parsed
    document: it inspects them and may throw. *)
Module MiddlewareStack.
Record t := mk {
  beforeFetch : string -> RequestInit.t -> RequestInit.t * option Error.t;
  afterFetch : Response.t -> Json -> option Error.t
}.
End MiddlewareStack.

(** What the module takes from its environment: the transport [fetch],
    which rejects with an error or resolves with a response; [colorize]
    from [./util/colorize] (a colour name and a text); and
    [JSON.stringify(value, null, space)]. *)
Class Globals := {
  fetch : string -> RequestInit.t -> Error.t + Response.t;
  colorize : string -> string -> string;
  JSON_stringify : Json -> nat -> string
}.

(** ** [class Request] *)

Module Request.

(** The logger member only receives lines: its calls go to the trace. *)
Record t := mk { middleware : MiddlewareStack.t }.

Section Methods.
Context `{G : Globals}.
Variable this : t.

Definition _logRequest (verb url : string) : M unit :=
  emit (LoggerInfo (colorize "cyan" (verb +:+ ": ") +:+ colorize "magenta" url)).

(** [responseJSON] is [undefined] when no payload was attached; a text
    parameter that is [undefined] prints as such. *)
Definition _logResponse (responseJSON : option Json) : M unit :=
  emit (LoggerDebug (colorize "bold"
    match responseJSON with
    | Some j => JSON_stringify j 4
    | None => "undefined"
    end)).

(** [response.clone().text()] starts a read of the body and is a promise,
    which the template prints without awaiting it. *)
Definition _logInvalidJSON (response : loc) : M unit :=
  emit (BodyText response) ;;
  emit (LoggerDebug ("Invalid Response JSON: " +:+ "[object Promise]")).

Definition _handleResponse (response : loc) (requestOptions : loc) : M unit :=
  o <- read_options requestOptions ;;
  r <- read_response response ;;
  let status := Response.status (JsonapiResponse.response r) in
  if wasDelete o status then ret tt else
  emit (BodyJson response) ;;
  match Response.json (JsonapiResponse.response r) with
  | inl e =>
      _logInvalidJSON response ;;
      (* [json] was never assigned: the template prints [undefined] *)
      throw (ThrowResponseError
        (ResponseError.new (Some response)
           (Some ("invalid json: " +:+ "undefined")) (Some e)))
  | inr json =>
      emit (AfterFetch response json) ;;
      match MiddlewareStack.afterFetch (middleware this)
              (JsonapiResponse.response r) json with
      | Some e =>
          throw (ThrowResponseError
            (ResponseError.new (Some response)
               (Some "afterFetch failed; review middleware.afterFetch stack")
               (Some e)))
      | None =>
          if (status >=? 500)%Z then
            throw (ThrowResponseError
              (ResponseError.new (Some response) (Some "Server Error") None))
          else
            noData <- (if negb (status =? 422)%Z
                       then lift (data_undefined json)
                       else ret false) ;;
            if (noData : bool) then
              if (status =? 404)%Z then
                throw (ThrowResponseError
                  (ResponseError.new (Some response)
                     (Some "record not found") None))
              else
                _logInvalidJSON response ;;
                throw (ThrowResponseError
                  (ResponseError.new (Some response)
                     (Some "invalid json") None))
            else
              write_response response (JsonapiResponse.set_jsonPayload json r)
      end
  end.

Definition _fetch (url : string) (options : loc) : M loc :=
  o <- read_options options ;;
  emit (BeforeFetch url o) ;;
  (let '(o', thrown) := MiddlewareStack.beforeFetch (middleware this) url o in
   write_options options o' ;;
   match thrown with
   | Some e =>
       throw (ThrowRequestError
         (RequestError.new
            "beforeFetch failed; review middleware.beforeFetch stack"
            url options e))
   | None => ret tt
   end) ;;
  o <- read_options options ;;
  emit (Fetch url o) ;;
  response <-
    match fetch url o with
    | inl e =>
        throw (ThrowResponseError
          (ResponseError.new None (Some (Error.message e)) (Some e)))
    | inr r => alloc_response r
    end ;;
  _handleResponse response options ;;
  ret response.

Definition _fetchWithLogging (url : string) (options : loc) : M loc :=
  o <- read_options options ;;
  _logRequest (or_default (RequestInit.method o) "UNDEFINED METHOD") url ;;
  response <- _fetch url options ;;
  r <- read_response response ;;
  _logResponse (JsonapiResponse.jsonPayload r) ;;
  ret response.

(** [options.method = m] *)
Definition assign_method (options : loc) (m : string) : M unit :=
  o <- read_options options ;;
  write_options options (RequestInit.set_method m o).

(** [options.body = b] *)
Definition assign_body (options : loc) (b : string) : M unit :=
  o <- read_options options ;;
  write_options options (RequestInit.set_body b o).

Definition get (url : string) (options : loc) : M loc :=
  assign_method options "GET" ;;
  _fetchWithLogging url options.

Definition post (url : string) (payload : Json) (options : loc) : M loc :=
  assign_method options "POST" ;;
  assign_body options (JSON_stringify payload 0) ;;
  _fetchWithLogging url options.

Definition patch (url : string) (payload : Json) (options : loc) : M loc :=
  assign_method options "PATCH" ;;
  assign_body options (JSON_stringify payload 0) ;;
  _fetchWithLogging url options.

Definition delete (url : string) (options : loc) : M loc :=
  assign_method options "DELETE" ;;
  _fetchWithLogging url options.

End Methods.
End Request.

(** ** Observations on a trace *)

Fixpoint count (p : Event -> bool) (t : list Event) : nat :=
  match t with
  | [] => O
  | e :: t' => if p e then S (count p t') else count p t'
  end.

Definition is_Fetch (e : Event) : bool :=
  match e with Fetch _ _ => true | _ => false end.

Definition is_BodyRead (e : Event) : bool :=
  match e with BodyJson _ | BodyText _ => true | _ => false end.

Definition is_AfterFetch (e : Event) : bool :=
  match e with AfterFetch _ _ => true | _ => false end.

(** How many times the transport was invoked (a call-count spy). *)
Definition transport_calls (t : list Event) : nat := count is_Fetch t.

(** How many reads of a response body were started. *)
Definition body_reads (t : list Event) : nat := count is_BodyRead t.

(** How many times the [afterFetch] hook was invoked. *)
Definition afterFetch_calls (t : list Event) : nat := count is_AfterFetch t.

(** The line [_logRequest] writes for a call entered with options [o]. *)
Definition request_line `{G : Globals} (o : RequestInit.t) (url : string) : Event :=
  LoggerInfo (colorize "cyan"
                (or_default (RequestInit.method o) "UNDEFINED METHOD" +:+ ": ")
              +:+ colorize "magenta" url).

(** The line [_logResponse] writes for a payload. *)
Definition response_line `{G : Globals} (payload : option Json) : Event :=
  LoggerDebug (colorize "bold"
    match payload with
    | Some j => JSON_stringify j 4
    | None => "undefined"
    end).

(** The location at which the next response object is created. *)
Definition next_response (w : World) : loc := fresh (dom (responseHeap w)).

(** The world in which classification starts, for a call entered in world
    [w] with options [o] that [beforeFetch] left as [o'] and to which the
    transport answered with [resp]. *)
Definition classification_world `{G : Globals} (w : World) (url : string)
    (options : loc) (o o' : RequestInit.t) (resp : Response.t) : World :=
  mkWorld (<[options := o']> (optionsHeap w))
          (<[next_response w := JsonapiResponse.mk resp None]> (responseHeap w))
          (trace w ++ [request_line o url; BeforeFetch url o; Fetch url o']).

(** ** Outcomes of a call *)

(** The call raised the pre-fetch error [e]. *)
Definition raises_RequestError {A} (out : Result A * World)
    (e : RequestError.t) : Prop :=
  fst out = Throw (ThrowRequestError e).

(** The call raised a post-fetch error with these three members. *)
Definition raises_ResponseError {A} (out : Result A * World)
    (response : option loc) (message : string)
    (originalError : option Error.t) : Prop :=
  fst out =
    Throw (ThrowResponseError (ResponseError.mk response message originalError)).

(** The response object at [response] carries, as [jsonPayload], the
    document that a JSON read of its body gives. *)
Definition carries_payload (w : World) (response : loc) : Prop :=
  exists r j,
    responseHeap w !! response = Some r /\
    Response.json (JsonapiResponse.response r) = inr j /\
    JsonapiResponse.jsonPayload r = Some j.

(** ** Stub collaborators and sample data *)

Module Stub.

(** [colorize] without colour support returns the text. *)
Definition plain_colorize (color text : string) : string := text.

Definition opaque_stringify (value : Json) (space : nat) : string :=
  "[document]".

(** A deterministic transport with one canned answer. *)
Definition globals (answer : Error.t + Response.t) : Globals :=
  Build_Globals (fun _ _ => answer) plain_colorize opaque_stringify.

(** Hooks that let every call through. *)
Definition accept : MiddlewareStack.t :=
  MiddlewareStack.mk (fun _ o => (o, None)) (fun _ _ => None).

(** A before-filter that adds a header to the options it is given. *)
Definition with_token (o : RequestInit.t) : RequestInit.t :=
  RequestInit.mk (RequestInit.method o) (RequestInit.body o)
    (("Authorization", "Bearer t0k3n") :: RequestInit.headers o)
    (RequestInit.others o).

Definition authorize : MiddlewareStack.t :=
  MiddlewareStack.mk (fun _ o => (with_token o, None)) (fun _ _ => None).

Definition abort : Error.t := Error.mk "abort" (Some "at filter (app.js:7)").

Definition reject_before : MiddlewareStack.t :=
  MiddlewareStack.mk (fun _ o => (with_token o, Some abort)) (fun _ _ => None).

Definition reject_after : MiddlewareStack.t :=
  MiddlewareStack.mk (fun _ o => (o, None)) (fun _ _ => Some abort).

Definition options0 : RequestInit.t :=
  RequestInit.mk None None
    [("Accept", "application/vnd.api+json")] [("credentials", "same-origin")].

(** The caller's options object, no response yet, nothing logged. *)
Definition world0 : World := mkWorld {[ 1%positive := options0 ]} ∅ [].

(** The same once a verb method wrote [method]. *)
Definition sent (method : string) : RequestInit.t :=
  RequestInit.set_method method options0.

Definition sent_world (method : string) : World :=
  mkWorld {[ 1%positive := sent method ]} ∅ [].

Definition validation_errors : Json :=
  JObject [("errors", JArray [JObject [("title", JString "Invalid")]])].

Definition person : Json :=
  JObject [("data", JObject [("type", JString "people"); ("id", JString "1")])].

Definition no_body : Error.t := Error.mk "Unexpected end of JSON input" None.

Definition offline : Error.t := Error.mk "Failed to fetch" None.

Definition silent : Error.t := Error.mk "" None.

End Stub.

(** Unfold the steps of the monad. *)
Ltac run :=
  unfold bind, read_options, read_response, write_options, write_response,
    alloc_response, emit, lift, throw, ret; simpl.

(** * Properties *)

Lemma count_app (p : Event -> bool) (t1 t2 : list Event) :
  count p (t1 ++ t2) = (count p t1 + count p t2)%nat.
Proof.
  induction t1 as [|e t1 IH]; simpl; [reflexivity|].
  destruct (p e); rewrite IH; reflexivity.
Qed.

(** The short-circuit test holds exactly for a DELETE answered with 200,
    202 or 204. *)
Lemma wasDelete_true (o : RequestInit.t) (status : Z) :
  wasDelete o status = true <->
  RequestInit.method o = Some "DELETE" /\
  (status = 200 \/ status = 202 \/ status = 204)%Z.
Proof.
  unfold wasDelete, indexOf, indexOf_from.
  destruct (RequestInit.method o) as [m|].
  - destruct (String.eqb_spec m "DELETE") as [->|Hm].
    + destruct (Z.eqb_spec 202 status), (Z.eqb_spec 204 status),
        (Z.eqb_spec 200 status); simpl; split;
        first [ intros _; split; [reflexivity | lia]
              | discriminate
              | intros [_ ?]; first [reflexivity | lia] ].
    + split; [discriminate|]. intros [Heq _]. congruence.
  - split; [discriminate|]. intros [Heq _]. discriminate.
Qed.

Lemma wasDelete_false_other_status (o : RequestInit.t) (status : Z) :
  status <> 200%Z -> status <> 202%Z -> status <> 204%Z ->
  wasDelete o status = false.
Proof.
  intros H1 H2 H3. destruct (wasDelete o status) eqn:E; [|reflexivity].
  apply wasDelete_true in E. lia.
Qed.

Section Properties.
Context `{G : Globals}.
Variable this : Request.t.

(** ** The classification step, case by case *)

Section Classification.
Variables (w : World) (response options : loc).
Variables (o : RequestInit.t) (r : JsonapiResponse.t).
Hypothesis Hoptions : optionsHeap w !! options = Some o.
Hypothesis Hresponse : responseHeap w !! response = Some r.

Lemma handleResponse_wasDelete :
  wasDelete o (Response.status (JsonapiResponse.response r)) = true ->
  Request._handleResponse this response options w = (Ok tt, w).
Proof.
  intros Hd. unfold Request._handleResponse. run.
  rewrite Hoptions, Hresponse, Hd. reflexivity.
Qed.

Lemma handleResponse_parse_failure e :
  wasDelete o (Response.status (JsonapiResponse.response r)) = false ->
  Response.json (JsonapiResponse.response r) = inl e ->
  Request._handleResponse this response options w =
    (Throw (ThrowResponseError
       (ResponseError.mk (Some response) "invalid json: undefined" (Some e))),
     mkWorld (optionsHeap w) (responseHeap w)
       (trace w ++ [BodyJson response; BodyText response;
                    LoggerDebug "Invalid Response JSON: [object Promise]"])).
Proof.
  intros Hd Hj. unfold Request._handleResponse. run.
  rewrite Hoptions, Hresponse, Hd, Hj.
  unfold Request._logInvalidJSON. run.
  rewrite <- ?app_assoc. reflexivity.
Qed.

Lemma handleResponse_afterFetch_raises j e :
  wasDelete o (Response.status (JsonapiResponse.response r)) = false ->
  Response.json (JsonapiResponse.response r) = inr j ->
  MiddlewareStack.afterFetch (Request.middleware this)
    (JsonapiResponse.response r) j = Some e ->
  Request._handleResponse this response options w =
    (Throw (ThrowResponseError
       (ResponseError.mk (Some response)
          "afterFetch failed; review middleware.afterFetch stack" (Some e))),
     mkWorld (optionsHeap w) (responseHeap w)
       (trace w ++ [BodyJson response; AfterFetch response j])).
Proof.
  intros Hd Hj Ha. unfold Request._handleResponse. run.
  rewrite Hoptions, Hresponse, Hd, Hj, Ha.
  simpl. rewrite <- ?app_assoc. reflexivity.
Qed.

(** From here on the body parsed to [j] and [afterFetch] returned. *)
Section Parsed.
Variable j : Json.
Hypothesis Hjson : Response.json (JsonapiResponse.response r) = inr j.
Hypothesis Hafter :
  MiddlewareStack.afterFetch (Request.middleware this)
    (JsonapiResponse.response r) j = None.

Lemma handleResponse_status_5xx :
  (Response.status (JsonapiResponse.response r) >= 500)%Z ->
  Request._handleResponse this response options w =
    (Throw (ThrowResponseError
       (ResponseError.mk (Some response) "Server Error" None)),
     mkWorld (optionsHeap w) (responseHeap w)
       (trace w ++ [BodyJson response; AfterFetch response j])).
Proof.
  intros Hs.
  assert (Hd : wasDelete o (Response.status (JsonapiResponse.response r)) = false)
    by (apply wasDelete_false_other_status; lia).
  unfold Request._handleResponse. run.
  rewrite Hoptions, Hresponse, Hd, Hjson, Hafter.
  replace (Response.status (JsonapiResponse.response r) >=? 500)%Z
    with true by lia.
  simpl. rewrite <- ?app_assoc. reflexivity.
Qed.

Lemma handleResponse_status_422 :
  Response.status (JsonapiResponse.response r) = 422%Z ->
  Request._handleResponse this response options w =
    (Ok tt,
     mkWorld (optionsHeap w)
       (<[response := JsonapiResponse.set_jsonPayload j r]> (responseHeap w))
       (trace w ++ [BodyJson response; AfterFetch response j])).
Proof.
  intros Hs.
  assert (Hd : wasDelete o (Response.status (JsonapiResponse.response r)) = false)
    by (apply wasDelete_false_other_status; lia).
  unfold Request._handleResponse. run.
  rewrite Hoptions, Hresponse, Hd, Hjson, Hafter, Hs.
  simpl. rewrite <- ?app_assoc. reflexivity.
Qed.

Lemma handleResponse_status_404 :
  Response.status (JsonapiResponse.response r) = 404%Z ->
  data_undefined j = Ok true ->
  Request._handleResponse this response options w =
    (Throw (ThrowResponseError
       (ResponseError.mk (Some response) "record not found" None)),
     mkWorld (optionsHeap w) (responseHeap w)
       (trace w ++ [BodyJson response; AfterFetch response j])).
Proof.
  intros Hs Hdata.
  assert (Hd : wasDelete o (Response.status (JsonapiResponse.response r)) = false)
    by (apply wasDelete_false_other_status; lia).
  unfold Request._handleResponse. run.
  rewrite Hoptions, Hresponse, Hd, Hjson, Hafter, Hs.
  simpl. rewrite Hdata.
  simpl. rewrite <- ?app_assoc. reflexivity.
Qed.

Lemma handleResponse_data :
  wasDelete o (Response.status (JsonapiResponse.response r)) = false ->
  (Response.status (JsonapiResponse.response r) < 500)%Z ->
  data_undefined j = Ok false ->
  Request._handleResponse this response options w =
    (Ok tt,
     mkWorld (optionsHeap w)
       (<[response := JsonapiResponse.set_jsonPayload j r]> (responseHeap w))
       (trace w ++ [BodyJson response; AfterFetch response j])).
Proof.
  intros Hd Hs Hdata.
  unfold Request._handleResponse. run.
  rewrite Hoptions, Hresponse, Hd, Hjson, Hafter.
  replace (Response.status (JsonapiResponse.response r) >=? 500)%Z
    with false by lia.
  destruct (Response.status (JsonapiResponse.response r) =? 422)%Z;
    simpl; rewrite ?Hdata; simpl; rewrite <- ?app_assoc; reflexivity.
Qed.

End Parsed.

(** The classification step never writes an options object. *)
Lemma handleResponse_optionsHeap :
  optionsHeap (snd (Request._handleResponse this response options w)) =
  optionsHeap w.
Proof.
  unfold Request._handleResponse, Request._logInvalidJSON. run.
  rewrite Hoptions, Hresponse.
  destruct (wasDelete _ _); [reflexivity|].
  destruct (Response.json _) as [e|j0]; [reflexivity|].
  destruct (MiddlewareStack.afterFetch _ _ _); [reflexivity|].
  destruct (_ >=? 500)%Z; [reflexivity|].
  destruct (_ =? 422)%Z; simpl; [reflexivity|].
  destruct (data_undefined j0) as [[|]|t]; [|reflexivity|reflexivity].
  destruct (_ =? 404)%Z; reflexivity.
Qed.

(** When the step returns, either the short-circuit applied and no
    response object changed, or the body parsed and its document was
    attached. *)
Lemma handleResponse_returns w' :
  Request._handleResponse this response options w = (Ok tt, w') ->
  (wasDelete o (Response.status (JsonapiResponse.response r)) = true /\
   responseHeap w' = responseHeap w) \/
  (wasDelete o (Response.status (JsonapiResponse.response r)) = false /\
   exists j, Response.json (JsonapiResponse.response r) = inr j /\
     responseHeap w' =
       <[response := JsonapiResponse.set_jsonPayload j r]> (responseHeap w)).
Proof.
  unfold Request._handleResponse, Request._logInvalidJSON. run.
  rewrite Hoptions, Hresponse.
  destruct (wasDelete o _).
  { intros [= <-]. left. split; reflexivity. }
  destruct (Response.json _) as [e|j0]; [discriminate|].
  destruct (MiddlewareStack.afterFetch _ _ _); [discriminate|].
  destruct (_ >=? 500)%Z; [discriminate|].
  intros Hrun. right. split; [reflexivity|]. exists j0. split; [reflexivity|].
  destruct (_ =? 422)%Z; simpl in Hrun.
  - injection Hrun as <-. reflexivity.
  - destruct (data_undefined j0) as [[|]|t]; simpl in Hrun.
    + destruct (_ =? 404)%Z; discriminate.
    + injection Hrun as <-. reflexivity.
    + discriminate.
Qed.

End Classification.

(** ** From the entry of a call to the classification step *)

(** A call whose [beforeFetch] hook throws ends there. *)
Lemma fetchWithLogging_hook_throws url options w o o' e :
  optionsHeap w !! options = Some o ->
  MiddlewareStack.beforeFetch (Request.middleware this) url o = (o', Some e) ->
  Request._fetchWithLogging this url options w =
    (Throw (ThrowRequestError
       (RequestError.new
          "beforeFetch failed; review middleware.beforeFetch stack"
          url options e)),
     mkWorld (<[options := o']> (optionsHeap w)) (responseHeap w)
       (trace w ++ [request_line o url; BeforeFetch url o])).
Proof.
  intros Ho Hb.
  unfold Request._fetchWithLogging, Request._fetch, Request._logRequest.
  run. rewrite Ho. simpl. rewrite Ho, Hb. simpl.
  rewrite <- !app_assoc. reflexivity.
Qed.

(** A call whose transport rejects ends there. *)
Lemma fetchWithLogging_transport_rejects url options w o o' e :
  optionsHeap w !! options = Some o ->
  MiddlewareStack.beforeFetch (Request.middleware this) url o = (o', None) ->
  fetch url o' = inl e ->
  Request._fetchWithLogging this url options w =
    (Throw (ThrowResponseError
       (ResponseError.new None (Some (Error.message e)) (Some e))),
     mkWorld (<[options := o']> (optionsHeap w)) (responseHeap w)
       (trace w ++ [request_line o url; BeforeFetch url o; Fetch url o'])).
Proof.
  intros Ho Hb Hf.
  unfold Request._fetchWithLogging, Request._fetch, Request._logRequest.
  run. rewrite Ho. simpl. rewrite Ho, Hb. simpl.
  rewrite lookup_insert_eq, Hf. simpl.
  rewrite <- !app_assoc. reflexivity.
Qed.

(** A call whose [beforeFetch] hook returns and whose transport resolves
    classifies the response in [classification_world]; once classified,
    the payload is logged and the response returned. *)
Lemma fetchWithLogging_delivered url options w o o' resp :
  optionsHeap w !! options = Some o ->
  MiddlewareStack.beforeFetch (Request.middleware this) url o = (o', None) ->
  fetch url o' = inr resp ->
  Request._fetchWithLogging this url options w =
    match Request._handleResponse this (next_response w) options
            (classification_world w url options o o' resp) with
    | (Ok _, w') =>
        (r <- read_response (next_response w) ;;
         Request._logResponse (JsonapiResponse.jsonPayload r) ;;
         ret (next_response w)) w'
    | (Throw t, w') => (Throw t, w')
    end.
Proof.
  intros Ho Hb Hf.
  unfold Request._fetchWithLogging, Request._fetch, Request._logRequest.
  run. rewrite Ho. simpl. rewrite Ho, Hb. simpl.
  rewrite lookup_insert_eq, Hf. simpl. rewrite <- !app_assoc. simpl.
  unfold classification_world, next_response, request_line.
  destruct (Request._handleResponse _ _ _ _) as [[[]|t] w']; reflexivity.
Qed.

Lemma classification_world_options w url options o o' resp :
  optionsHeap (classification_world w url options o o' resp) !! options = Some o'.
Proof. apply lookup_insert_eq. Qed.

Lemma classification_world_response w url options o o' resp :
  responseHeap (classification_world w url options o o' resp) !! next_response w =
  Some (JsonapiResponse.mk resp None).
Proof. apply lookup_insert_eq. Qed.

(** A thrown classification is the outcome of the call. *)
Lemma fetchWithLogging_classification_throws url options w o o' resp t w' :
  optionsHeap w !! options = Some o ->
  MiddlewareStack.beforeFetch (Request.middleware this) url o = (o', None) ->
  fetch url o' = inr resp ->
  Request._handleResponse this (next_response w) options
    (classification_world w url options o o' resp) = (Throw t, w') ->
  Request._fetchWithLogging this url options w = (Throw t, w').
Proof.
  intros Ho Hb Hf Hc.
  rewrite (fetchWithLogging_delivered _ _ _ _ _ _ Ho Hb Hf), Hc. reflexivity.
Qed.

(** A classification that returns is followed by the debug line for the
    payload, and the call returns the response. *)
Lemma fetchWithLogging_classification_returns url options w o o' resp w' r :
  optionsHeap w !! options = Some o ->
  MiddlewareStack.beforeFetch (Request.middleware this) url o = (o', None) ->
  fetch url o' = inr resp ->
  Request._handleResponse this (next_response w) options
    (classification_world w url options o o' resp) = (Ok tt, w') ->
  responseHeap w' !! next_response w = Some r ->
  Request._fetchWithLogging this url options w =
    (Ok (next_response w),
     mkWorld (optionsHeap w') (responseHeap w')
       (trace w' ++ [response_line (JsonapiResponse.jsonPayload r)])).
Proof.
  intros Ho Hb Hf Hc Hr.
  rewrite (fetchWithLogging_delivered _ _ _ _ _ _ Ho Hb Hf), Hc.
  unfold Request._logResponse. run. rewrite Hr. reflexivity.
Qed.

(** ** The verb methods *)

Lemma assign_method_run options m w o :
  optionsHeap w !! options = Some o ->
  Request.assign_method options m w =
    (Ok tt, mkWorld (<[options := RequestInit.set_method m o]> (optionsHeap w))
                    (responseHeap w) (trace w)).
Proof. intros Ho. unfold Request.assign_method. run. rewrite Ho. reflexivity. Qed.

Lemma assign_body_run options b w o :
  optionsHeap w !! options = Some o ->
  Request.assign_body options b w =
    (Ok tt, mkWorld (<[options := RequestInit.set_body b o]> (optionsHeap w))
                    (responseHeap w) (trace w)).
Proof. intros Ho. unfold Request.assign_body. run. rewrite Ho. reflexivity. Qed.

(** ** Failures before and at the transport *)

(** C1.  When the [beforeFetch] hook raises, the call raises a
    [RequestError] with the fixed diagnostic message, the URL, the options
    object and the hook's error (whose stack it adopts); the trace of the
    call ends with the hook, the transport was not invoked and no response
    object exists. *)
Theorem beforeFetch_failure_aborts_before_transport url options w o o' e :
  optionsHeap w !! options = Some o ->
  MiddlewareStack.beforeFetch (Request.middleware this) url o = (o', Some e) ->
  let out := Request._fetchWithLogging this url options w in
  raises_RequestError out
    (RequestError.mk "beforeFetch failed; review middleware.beforeFetch stack"
       (Error.stack e) url options e) /\
  trace (snd out) = trace w ++ [request_line o url; BeforeFetch url o] /\
  transport_calls (trace (snd out)) = transport_calls (trace w) /\
  responseHeap (snd out) = responseHeap w.
Proof.
  intros Ho Hb out. unfold out, raises_RequestError.
  rewrite (fetchWithLogging_hook_throws _ _ _ _ _ _ Ho Hb). simpl.
  repeat split.
  unfold transport_calls. rewrite count_app. simpl. lia.
Qed.

(** C9, amended.  When the transport fails with [e], the call raises a
    [ResponseError] without a response, wrapping [e], whose message is the
    message of [e] unless that is empty, and ["Invalid Response"] if it
    is. *)
Theorem transport_failure_raises_response_error url options w o o' e :
  optionsHeap w !! options = Some o ->
  MiddlewareStack.beforeFetch (Request.middleware this) url o = (o', None) ->
  fetch url o' = inl e ->
  let out := Request._fetchWithLogging this url options w in
  exists message,
    raises_ResponseError out None message (Some e) /\
    (Error.message e <> "" -> message = Error.message e) /\
    (Error.message e = "" -> message = "Invalid Response").
Proof.
  intros Ho Hb Hf out.
  exists (or_default (Some (Error.message e)) "Invalid Response").
  split.
  - unfold out, raises_ResponseError.
    rewrite (fetchWithLogging_transport_rejects _ _ _ _ _ _ Ho Hb Hf).
    reflexivity.
  - unfold or_default. destruct (Error.message e); split; congruence.
Qed.

(** ** Classification of a delivered response *)

Section Delivered.
Variables (url : string) (options : loc) (w : World).
Variables (o o' : RequestInit.t) (resp : Response.t).
Hypothesis Hoptions : optionsHeap w !! options = Some o.
Hypothesis Hbefore :
  MiddlewareStack.beforeFetch (Request.middleware this) url o = (o', None).
Hypothesis Hfetch : fetch url o' = inr resp.

(** C5.  When the body parses and [afterFetch] returns, a status of 500 or
    more raises ["Server Error"], whatever the parsed body holds. *)
Theorem status_5xx_raises_server_error j :
  Response.json resp = inr j ->
  MiddlewareStack.afterFetch (Request.middleware this) resp j = None ->
  (Response.status resp >= 500)%Z ->
  raises_ResponseError (Request._fetchWithLogging this url options w)
    (Some (next_response w)) "Server Error" None.
Proof.
  intros Hj Ha Hs. unfold raises_ResponseError.
  pose proof (handleResponse_status_5xx _ _ _ _ _
                (classification_world_options w url options o o' resp)
                (classification_world_response w url options o o' resp)
                j Hj Ha Hs) as Hc.
  rewrite (fetchWithLogging_classification_throws _ _ _ _ _ _ _ _
             Hoptions Hbefore Hfetch Hc).
  reflexivity.
Qed.

(** C3, amended.  A 404 whose body parses to a document other than [null]
    without a top-level [data] member, and whose [afterFetch] hook returns,
    raises ["record not found"]. *)
Theorem status_404_without_data_raises_not_found j :
  Response.status resp = 404%Z ->
  Response.json resp = inr j ->
  MiddlewareStack.afterFetch (Request.middleware this) resp j = None ->
  data_undefined j = Ok true ->
  raises_ResponseError (Request._fetchWithLogging this url options w)
    (Some (next_response w)) "record not found" None.
Proof.
  intros Hs Hj Ha Hdata. unfold raises_ResponseError.
  pose proof (handleResponse_status_404 _ _ _ _ _
                (classification_world_options w url options o o' resp)
                (classification_world_response w url options o o' resp)
                j Hj Ha Hs Hdata) as Hc.
  rewrite (fetchWithLogging_classification_throws _ _ _ _ _ _ _ _
             Hoptions Hbefore Hfetch Hc).
  reflexivity.
Qed.

(** C7.  A body that does not parse, outside the DELETE short-circuit,
    raises a [ResponseError] with message ["invalid json: undefined"],
    which begins with ["invalid json:"], wrapping the parse error; the last
    thing the call did before was to log the invalid body at debug
    level. *)
Theorem parse_failure_raises_invalid_json e :
  wasDelete o' (Response.status resp) = false ->
  Response.json resp = inl e ->
  exists message,
    raises_ResponseError (Request._fetchWithLogging this url options w)
      (Some (next_response w)) message (Some e) /\
    message = "invalid json: undefined" /\
    String.prefix "invalid json:" message = true /\
    trace (snd (Request._fetchWithLogging this url options w)) =
      trace w ++
      [request_line o url; BeforeFetch url o; Fetch url o';
       BodyJson (next_response w); BodyText (next_response w);
       LoggerDebug "Invalid Response JSON: [object Promise]"].
Proof.
  intros Hd Hj. exists "invalid json: undefined".
  unfold raises_ResponseError.
  pose proof (handleResponse_parse_failure _ _ _ _ _
                (classification_world_options w url options o o' resp)
                (classification_world_response w url options o o' resp)
                e Hd Hj) as Hc.
  rewrite (fetchWithLogging_classification_throws _ _ _ _ _ _ _ _
             Hoptions Hbefore Hfetch Hc).
  simpl. rewrite <- app_assoc. repeat split.
Qed.

(** C6.  A 422 whose body parses and whose [afterFetch] hook returns
    succeeds whatever the document is, with or without [data]: the call
    returns the response, decorated with the parsed document. *)
Theorem status_422_succeeds_with_any_document j :
  Response.status resp = 422%Z ->
  Response.json resp = inr j ->
  MiddlewareStack.afterFetch (Request.middleware this) resp j = None ->
  fst (Request._fetchWithLogging this url options w) = Ok (next_response w) /\
  responseHeap (snd (Request._fetchWithLogging this url options w))
    !! next_response w = Some (JsonapiResponse.mk resp (Some j)).
Proof.
  intros Hs Hj Ha.
  pose proof (handleResponse_status_422 _ _ _ _ _
                (classification_world_options w url options o o' resp)
                (classification_world_response w url options o o' resp)
                j Hj Ha Hs) as Hc.
  erewrite (fetchWithLogging_classification_returns _ _ _ _ _ _ _ _
              Hoptions Hbefore Hfetch Hc).
  - simpl. split; [reflexivity|]. apply lookup_insert_eq.
  - apply lookup_insert_eq.
Qed.

End Delivered.

(** ** The verb methods and the options object *)

(** C8.  Each verb method writes the caller's options object in place and
    hands the same reference on: [get] and [delete] replace its [method]
    member, [post] and [patch] its [method] and [body] members, the body
    being the serialised payload.  The other members keep their values
    and nothing else in the store changes. *)
Theorem verbs_write_options_in_place url payload options w o :
  optionsHeap w !! options = Some o ->
  let written (method : string) (body : option string) : World :=
    mkWorld
      (<[options := RequestInit.mk (Some method) body
                      (RequestInit.headers o) (RequestInit.others o)]>
         (optionsHeap w))
      (responseHeap w) (trace w) in
  Request.get this url options w =
    Request._fetchWithLogging this url options
      (written "GET" (RequestInit.body o)) /\
  Request.delete this url options w =
    Request._fetchWithLogging this url options
      (written "DELETE" (RequestInit.body o)) /\
  Request.post this url payload options w =
    Request._fetchWithLogging this url options
      (written "POST" (Some (JSON_stringify payload 0))) /\
  Request.patch this url payload options w =
    Request._fetchWithLogging this url options
      (written "PATCH" (Some (JSON_stringify payload 0))).
Proof.
  intros Ho written.
  assert (Hbody : forall m b,
    Request.assign_body options b
      (mkWorld (<[options := RequestInit.set_method m o]> (optionsHeap w))
               (responseHeap w) (trace w)) =
    (Ok tt, written m (Some b))).
  { intros m b. erewrite assign_body_run by apply lookup_insert_eq.
    simpl. rewrite insert_insert_eq. reflexivity. }
  unfold Request.get, Request.delete, Request.post, Request.patch, bind.
  rewrite !(assign_method_run _ _ _ _ Ho). cbv beta iota.
  rewrite !Hbody.
  repeat split.
Qed.

(** After the verb method, a call writes the options object only through
    the [beforeFetch] hook, and writes no other options object. *)
Lemma fetchWithLogging_optionsHeap url options w o :
  optionsHeap w !! options = Some o ->
  optionsHeap (snd (Request._fetchWithLogging this url options w)) =
  <[options := fst (MiddlewareStack.beforeFetch (Request.middleware this) url o)]>
    (optionsHeap w).
Proof.
  intros Ho.
  destruct (MiddlewareStack.beforeFetch (Request.middleware this) url o)
    as [o' [e|]] eqn:Hb.
  - rewrite (fetchWithLogging_hook_throws _ _ _ _ _ _ Ho Hb). reflexivity.
  - destruct (fetch url o') as [e|resp] eqn:Hf.
    + rewrite (fetchWithLogging_transport_rejects _ _ _ _ _ _ Ho Hb Hf).
      reflexivity.
    + rewrite (fetchWithLogging_delivered _ _ _ _ _ _ Ho Hb Hf).
      pose proof (handleResponse_optionsHeap
        (classification_world w url options o o' resp) (next_response w)
        options o' _ (classification_world_options _ _ _ _ _ _)
        (classification_world_response _ _ _ _ _ _)) as Hframe.
      destruct (Request._handleResponse _ _ _ _) as [[[]|t] w']; simpl in *.
      * unfold Request._logResponse. run.
        destruct (responseHeap w' !! next_response w); simpl; exact Hframe.
      * exact Hframe.
Qed.

(** ** What a successful call returns *)

(** C2, amended.  A call that returns, returns a response object of the
    store; unless the DELETE short-circuit applied to it (the method of
    the options and the status of the response pass [wasDelete]), that
    object carries as [jsonPayload] the document parsed from its body. *)
Theorem returned_response_carries_parsed_payload url options w response w' :
  Request._fetchWithLogging this url options w = (Ok response, w') ->
  exists o' r,
    optionsHeap w' !! options = Some o' /\
    responseHeap w' !! response = Some r /\
    (wasDelete o' (Response.status (JsonapiResponse.response r)) = false ->
     carries_payload w' response).
Proof.
  intros Hrun.
  destruct (optionsHeap w !! options) as [o|] eqn:Ho.
  2: { unfold Request._fetchWithLogging, bind, read_options in Hrun.
       rewrite Ho in Hrun. discriminate. }
  destruct (MiddlewareStack.beforeFetch (Request.middleware this) url o)
    as [o' [e|]] eqn:Hb.
  { rewrite (fetchWithLogging_hook_throws _ _ _ _ _ _ Ho Hb) in Hrun.
    discriminate. }
  destruct (fetch url o') as [e|resp] eqn:Hf.
  { rewrite (fetchWithLogging_transport_rejects _ _ _ _ _ _ Ho Hb Hf) in Hrun.
    discriminate. }
  pose proof (classification_world_options w url options o o' resp) as Hco.
  pose proof (classification_world_response w url options o o' resp) as Hcr.
  pose proof (handleResponse_optionsHeap _ _ _ _ _ Hco Hcr) as Hframe.
  destruct (Request._handleResponse this (next_response w) options
              (classification_world w url options o o' resp))
    as [[[]|t] w1] eqn:Hc.
  2: { rewrite (fetchWithLogging_classification_throws _ _ _ _ _ _ _ _
                  Ho Hb Hf Hc) in Hrun. discriminate. }
  simpl in Hframe.
  destruct (handleResponse_returns _ _ _ _ _ Hco Hcr _ Hc)
    as [[Hd Hheap] | [Hd (j & Hj & Hheap)]]; simpl in Hd.
  - assert (Hr : responseHeap w1 !! next_response w =
                 Some (JsonapiResponse.mk resp None))
      by (rewrite Hheap; exact Hcr).
    rewrite (fetchWithLogging_classification_returns _ _ _ _ _ _ _ _
               Ho Hb Hf Hc Hr) in Hrun.
    injection Hrun as <- <-. simpl.
    exists o', (JsonapiResponse.mk resp None).
    rewrite Hframe. repeat split; [exact Hco | exact Hr |].
    simpl. congruence.
  - assert (Hr : responseHeap w1 !! next_response w =
                 Some (JsonapiResponse.mk resp (Some j)))
      by (rewrite Hheap; apply lookup_insert_eq).
    rewrite (fetchWithLogging_classification_returns _ _ _ _ _ _ _ _
               Ho Hb Hf Hc Hr) in Hrun.
    injection Hrun as <- <-. simpl.
    exists o', (JsonapiResponse.mk resp (Some j)).
    rewrite Hframe. repeat split; [exact Hco | exact Hr |].
    intros _. exists (JsonapiResponse.mk resp (Some j)), j.
    repeat split; [exact Hr | exact Hj].
Qed.

End Properties.

(** ** The DELETE short-circuit *)

Section ShortCircuit.
Context `{G : Globals}.
Variables (url : string) (options : loc) (w : World).
Variables (o o' : RequestInit.t) (resp : Response.t).

(** The options of the call are present, and the transport answers the
    request with 200, 202 or 204. *)
Hypothesis Hoptions : optionsHeap w !! options = Some o.
Hypothesis Hfetch : fetch url o' = inr resp.
Hypothesis Hstatus :
  (Response.status resp = 200 \/ Response.status resp = 202 \/
   Response.status resp = 204)%Z.

(** The run of a DELETE that the [beforeFetch] hook lets through as a
    DELETE. *)
Lemma short_circuited_delete_run this :
  MiddlewareStack.beforeFetch (Request.middleware this) url
    (RequestInit.set_method "DELETE" o) = (o', None) ->
  RequestInit.method o' = Some "DELETE" ->
  Request.delete this url options w =
    (Ok (next_response w),
     mkWorld (<[options := o']> (optionsHeap w))
       (<[next_response w := JsonapiResponse.mk resp None]> (responseHeap w))
       (trace w ++
        [request_line (RequestInit.set_method "DELETE" o) url;
         BeforeFetch url (RequestInit.set_method "DELETE" o);
         Fetch url o'; response_line None])).
Proof.
  intros Hb Hm.
  unfold Request.delete, bind.
  rewrite (assign_method_run _ _ _ _ Hoptions).
  set (w1 := mkWorld _ _ _).
  assert (Ho1 : optionsHeap w1 !! options = Some (RequestInit.set_method "DELETE" o))
    by apply lookup_insert_eq.
  assert (Hd : wasDelete o' (Response.status resp) = true)
    by (apply wasDelete_true; split; [exact Hm | lia]).
  set (o1 := RequestInit.set_method "DELETE" o) in *.
  pose proof (handleResponse_wasDelete this _ _ _ _ _
    (classification_world_options w1 url options o1 o' resp)
    (classification_world_response w1 url options o1 o' resp) Hd) as Hc.
  rewrite (fetchWithLogging_classification_returns this _ _ _ _ _ _ _ _
             Ho1 Hb Hfetch Hc
             (classification_world_response w1 url options o1 o' resp)).
  unfold classification_world, next_response, w1. simpl.
  rewrite insert_insert_eq, <- app_assoc. reflexivity.
Qed.

(** C4.  A DELETE answered with 200, 202 or 204 succeeds without a read
    of the body, whatever such a read would give: the call returns the
    response undecorated, and its trace is the request line, the hook,
    the transport and the debug line. *)
Theorem delete_short_circuit_reads_no_body this :
  MiddlewareStack.beforeFetch (Request.middleware this) url
    (RequestInit.set_method "DELETE" o) = (o', None) ->
  RequestInit.method o' = Some "DELETE" ->
  let out := Request.delete this url options w in
  fst out = Ok (next_response w) /\
  responseHeap (snd out) !! next_response w =
    Some (JsonapiResponse.mk resp None) /\
  trace (snd out) =
    trace w ++
    [request_line (RequestInit.set_method "DELETE" o) url;
     BeforeFetch url (RequestInit.set_method "DELETE" o);
     Fetch url o'; response_line None] /\
  body_reads (trace (snd out)) = body_reads (trace w).
Proof.
  intros Hb Hm out. unfold out.
  rewrite (short_circuited_delete_run this Hb Hm). simpl.
  repeat split.
  - apply lookup_insert_eq.
  - unfold body_reads. rewrite count_app. simpl. lia.
Qed.

(** C10.  A DELETE answered with 200, 202 or 204 returns without invoking
    the [afterFetch] hook: the trace gains no call of it, and the call
    runs the same with any other [afterFetch] hook in place. *)
Theorem delete_short_circuit_skips_afterFetch this :
  MiddlewareStack.beforeFetch (Request.middleware this) url
    (RequestInit.set_method "DELETE" o) = (o', None) ->
  RequestInit.method o' = Some "DELETE" ->
  let out := Request.delete this url options w in
  fst out = Ok (next_response w) /\
  afterFetch_calls (trace (snd out)) = afterFetch_calls (trace w) /\
  forall afterFetch,
    Request.delete
      (Request.mk
         (MiddlewareStack.mk
            (MiddlewareStack.beforeFetch (Request.middleware this)) afterFetch))
      url options w = out.
Proof.
  intros Hb Hm out. unfold out.
  rewrite (short_circuited_delete_run this Hb Hm). simpl.
  repeat split.
  - unfold afterFetch_calls. rewrite count_app. simpl. lia.
  - intros afterFetch. apply short_circuited_delete_run; assumption.
Qed.

End ShortCircuit.

(** ** Where the specification and the code part ways *)

(** C2, as stated, fails: a DELETE answered with 200 and a JSON body
    returns a response that carries no payload. *)
Lemma delete_returns_response_without_payload :
  fst (Request.delete (G := Stub.globals (inr (Response.mk 200 (inr Stub.person))))
         (Request.mk Stub.accept) "/people/1" 1%positive Stub.world0)
    = Ok 1%positive /\
  ~ carries_payload
      (snd (Request.delete
              (G := Stub.globals (inr (Response.mk 200 (inr Stub.person))))
              (Request.mk Stub.accept) "/people/1" 1%positive Stub.world0))
      1%positive.
Proof.
  split; [reflexivity|].
  intros (r & j & Hr & _ & Hp).
  vm_compute in Hr. injection Hr as <-. discriminate Hp.
Qed.

(** C3, as stated, fails: a GET answered with 404 and a body that has a
    [data] member returns, and raises no ["record not found"]. *)
Lemma status_404_with_data_returns :
  fst (Request.get (G := Stub.globals (inr (Response.mk 404 (inr Stub.person))))
         (Request.mk Stub.accept) "/people/1" 1%positive Stub.world0)
    = Ok 1%positive /\
  ~ raises_ResponseError
      (Request.get (G := Stub.globals (inr (Response.mk 404 (inr Stub.person))))
         (Request.mk Stub.accept) "/people/1" 1%positive Stub.world0)
      (Some 1%positive) "record not found" None.
Proof.
  split; [reflexivity|].
  unfold raises_ResponseError. vm_compute. discriminate.
Qed.

(** C9, as stated, fails: for a transport error with an empty message the
    error raised has the message ["Invalid Response"], not the empty one. *)
Lemma transport_failure_with_empty_message :
  raises_ResponseError
    (Request.get (G := Stub.globals (inl Stub.silent))
       (Request.mk Stub.accept) "/people/1" 1%positive Stub.world0)
    None "Invalid Response" (Some Stub.silent) /\
  ~ raises_ResponseError
      (Request.get (G := Stub.globals (inl Stub.silent))
         (Request.mk Stub.accept) "/people/1" 1%positive Stub.world0)
      None (Error.message Stub.silent) (Some Stub.silent).
Proof.
  split; [reflexivity|].
  unfold raises_ResponseError. vm_compute. discriminate.
Qed.

(** ** The properties at work on the stub collaborators *)

(** A before-filter that throws [Stub.abort]: the GET raises the pre-fetch
    error and the transport is never called. *)
Lemma beforeFetch_failure_aborts_before_transport_witness :
  (optionsHeap (Stub.sent_world "GET") !! 1%positive = Some (Stub.sent "GET") /\
   MiddlewareStack.beforeFetch Stub.reject_before "/people/1" (Stub.sent "GET") =
     (Stub.with_token (Stub.sent "GET"), Some Stub.abort)) /\
  raises_RequestError
    (Request._fetchWithLogging
       (G := Stub.globals (inr (Response.mk 200 (inr Stub.person))))
       (Request.mk Stub.reject_before) "/people/1" 1%positive
       (Stub.sent_world "GET"))
    (RequestError.mk "beforeFetch failed; review middleware.beforeFetch stack"
       (Some "at filter (app.js:7)") "/people/1" 1%positive Stub.abort) /\
  transport_calls
    (trace (snd (Request._fetchWithLogging
       (G := Stub.globals (inr (Response.mk 200 (inr Stub.person))))
       (Request.mk Stub.reject_before) "/people/1" 1%positive
       (Stub.sent_world "GET")))) = O.
Proof.
  destruct (beforeFetch_failure_aborts_before_transport
              (G := Stub.globals (inr (Response.mk 200 (inr Stub.person))))
              (Request.mk Stub.reject_before) "/people/1" 1%positive
              (Stub.sent_world "GET") (Stub.sent "GET")
              (Stub.with_token (Stub.sent "GET")) Stub.abort
              eq_refl eq_refl) as (Hraise & _ & Hcalls & _).
  split; [split; reflexivity|]. split; [exact Hraise | exact Hcalls].
Defined.

(** A GET answered with 200 and a document: the response returned carries that document. *)
Lemma returned_response_carries_parsed_payload_witness :
  Request._fetchWithLogging
    (G := Stub.globals (inr (Response.mk 200 (inr Stub.person))))
    (Request.mk Stub.authorize) "/people/1" 1%positive (Stub.sent_world "GET")
  = (Ok 1%positive,
     snd (Request._fetchWithLogging
            (G := Stub.globals (inr (Response.mk 200 (inr Stub.person))))
            (Request.mk Stub.authorize) "/people/1" 1%positive
            (Stub.sent_world "GET"))) /\
  carries_payload
    (snd (Request._fetchWithLogging
            (G := Stub.globals (inr (Response.mk 200 (inr Stub.person))))
            (Request.mk Stub.authorize) "/people/1" 1%positive
            (Stub.sent_world "GET")))
    1%positive.
Proof.
  assert (Hrun :
    Request._fetchWithLogging
      (G := Stub.globals (inr (Response.mk 200 (inr Stub.person))))
      (Request.mk Stub.authorize) "/people/1" 1%positive (Stub.sent_world "GET")
    = (Ok 1%positive,
       snd (Request._fetchWithLogging
              (G := Stub.globals (inr (Response.mk 200 (inr Stub.person))))
              (Request.mk Stub.authorize) "/people/1" 1%positive
              (Stub.sent_world "GET")))) by reflexivity.
  split; [exact Hrun|].
  destruct (returned_response_carries_parsed_payload
              (G := Stub.globals (inr (Response.mk 200 (inr Stub.person))))
              (Request.mk Stub.authorize) "/people/1" 1%positive
              (Stub.sent_world "GET") 1%positive _ Hrun)
    as (o' & r & Ho & Hr & Hcarries).
  apply Hcarries.
  assert (Ho' : Some o' = Some (Stub.with_token (Stub.sent "GET")))
    by (rewrite <- Ho; reflexivity).
  assert (Hr' : Some r =
                Some (JsonapiResponse.mk (Response.mk 200 (inr Stub.person))
                        (Some Stub.person)))
    by (rewrite <- Hr; reflexivity).
  injection Ho' as ->. injection Hr' as ->.
  reflexivity.
Defined.

(** A GET answered with 404 and a document without [data]. *)
Lemma status_404_without_data_raises_not_found_witness :
  (optionsHeap (Stub.sent_world "GET") !! 1%positive = Some (Stub.sent "GET") /\
   MiddlewareStack.beforeFetch Stub.accept "/people/9" (Stub.sent "GET") =
     (Stub.sent "GET", None) /\
   MiddlewareStack.afterFetch Stub.accept
     (Response.mk 404 (inr Stub.validation_errors)) Stub.validation_errors = None /\
   data_undefined Stub.validation_errors = Ok true) /\
  raises_ResponseError
    (Request._fetchWithLogging
       (G := Stub.globals (inr (Response.mk 404 (inr Stub.validation_errors))))
       (Request.mk Stub.accept) "/people/9" 1%positive (Stub.sent_world "GET"))
    (Some 1%positive) "record not found" None.
Proof.
  split; [repeat split|].
  exact (status_404_without_data_raises_not_found
           (G := Stub.globals (inr (Response.mk 404 (inr Stub.validation_errors))))
           (Request.mk Stub.accept) "/people/9" 1%positive (Stub.sent_world "GET")
           (Stub.sent "GET") (Stub.sent "GET")
           (Response.mk 404 (inr Stub.validation_errors))
           eq_refl eq_refl eq_refl Stub.validation_errors
           eq_refl eq_refl eq_refl eq_refl).
Defined.

(** A DELETE answered with 204 by a response whose body read fails, behind
    a before-filter that adds a header. *)
Lemma delete_short_circuit_reads_no_body_witness :
  (optionsHeap Stub.world0 !! 1%positive = Some Stub.options0 /\
   MiddlewareStack.beforeFetch Stub.authorize "/people/1" (Stub.sent "DELETE") =
     (Stub.with_token (Stub.sent "DELETE"), None) /\
   RequestInit.method (Stub.with_token (Stub.sent "DELETE")) = Some "DELETE" /\
   Response.json (Response.mk 204 (inl Stub.no_body)) = inl Stub.no_body) /\
  fst (Request.delete
         (G := Stub.globals (inr (Response.mk 204 (inl Stub.no_body))))
         (Request.mk Stub.authorize) "/people/1" 1%positive Stub.world0)
    = Ok 1%positive /\
  body_reads
    (trace (snd (Request.delete
       (G := Stub.globals (inr (Response.mk 204 (inl Stub.no_body))))
       (Request.mk Stub.authorize) "/people/1" 1%positive Stub.world0))) = O.
Proof.
  destruct (delete_short_circuit_reads_no_body
              (G := Stub.globals (inr (Response.mk 204 (inl Stub.no_body))))
              "/people/1" 1%positive Stub.world0 Stub.options0
              (Stub.with_token (Stub.sent "DELETE"))
              (Response.mk 204 (inl Stub.no_body))
              eq_refl eq_refl (or_intror (or_intror eq_refl))
              (Request.mk Stub.authorize) eq_refl eq_refl)
    as (Hok & _ & _ & Hreads).
  split; [repeat split|]. split; [exact Hok | exact Hreads].
Defined.

(** A GET answered with 503 and a document that has [data]. *)
Lemma status_5xx_raises_server_error_witness :
  (optionsHeap (Stub.sent_world "GET") !! 1%positive = Some (Stub.sent "GET") /\
   MiddlewareStack.beforeFetch Stub.accept "/people/1" (Stub.sent "GET") =
     (Stub.sent "GET", None) /\
   MiddlewareStack.afterFetch Stub.accept
     (Response.mk 503 (inr Stub.person)) Stub.person = None /\
   (503 >= 500)%Z) /\
  raises_ResponseError
    (Request._fetchWithLogging
       (G := Stub.globals (inr (Response.mk 503 (inr Stub.person))))
       (Request.mk Stub.accept) "/people/1" 1%positive (Stub.sent_world "GET"))
    (Some 1%positive) "Server Error" None.
Proof.
  assert (Hs : (503 >= 500)%Z) by lia.
  split; [repeat split; exact Hs|].
  exact (status_5xx_raises_server_error
           (G := Stub.globals (inr (Response.mk 503 (inr Stub.person))))
           (Request.mk Stub.accept) "/people/1" 1%positive (Stub.sent_world "GET")
           (Stub.sent "GET") (Stub.sent "GET")
           (Response.mk 503 (inr Stub.person))
           eq_refl eq_refl eq_refl Stub.person eq_refl eq_refl Hs).
Defined.

(** A POST answered with 422 and the validation errors document. *)
Lemma status_422_succeeds_with_any_document_witness :
  (optionsHeap (Stub.sent_world "POST") !! 1%positive = Some (Stub.sent "POST") /\
   MiddlewareStack.beforeFetch Stub.accept "/people" (Stub.sent "POST") =
     (Stub.sent "POST", None) /\
   MiddlewareStack.afterFetch Stub.accept
     (Response.mk 422 (inr Stub.validation_errors)) Stub.validation_errors = None) /\
  fst (Request._fetchWithLogging
         (G := Stub.globals (inr (Response.mk 422 (inr Stub.validation_errors))))
         (Request.mk Stub.accept) "/people" 1%positive (Stub.sent_world "POST"))
    = Ok 1%positive /\
  responseHeap
    (snd (Request._fetchWithLogging
            (G := Stub.globals (inr (Response.mk 422 (inr Stub.validation_errors))))
            (Request.mk Stub.accept) "/people" 1%positive (Stub.sent_world "POST")))
    !! 1%positive
  = Some (JsonapiResponse.mk (Response.mk 422 (inr Stub.validation_errors))
            (Some (JObject [("errors", JArray [JObject [("title", JString "Invalid")]])]))).
Proof.
  split; [repeat split|].
  exact (status_422_succeeds_with_any_document
           (G := Stub.globals (inr (Response.mk 422 (inr Stub.validation_errors))))
           (Request.mk Stub.accept) "/people" 1%positive (Stub.sent_world "POST")
           (Stub.sent "POST") (Stub.sent "POST")
           (Response.mk 422 (inr Stub.validation_errors))
           eq_refl eq_refl eq_refl Stub.validation_errors
           eq_refl eq_refl eq_refl).
Defined.

(** A GET answered with 200 and a body that does not parse. *)
Lemma parse_failure_raises_invalid_json_witness :
  (optionsHeap (Stub.sent_world "GET") !! 1%positive = Some (Stub.sent "GET") /\
   MiddlewareStack.beforeFetch Stub.accept "/people/1" (Stub.sent "GET") =
     (Stub.sent "GET", None) /\
   wasDelete (Stub.sent "GET") 200 = false) /\
  raises_ResponseError
    (Request._fetchWithLogging
       (G := Stub.globals (inr (Response.mk 200 (inl Stub.no_body))))
       (Request.mk Stub.accept) "/people/1" 1%positive (Stub.sent_world "GET"))
    (Some 1%positive) "invalid json: undefined" (Some Stub.no_body).
Proof.
  split; [repeat split|].
  destruct (parse_failure_raises_invalid_json
              (G := Stub.globals (inr (Response.mk 200 (inl Stub.no_body))))
              (Request.mk Stub.accept) "/people/1" 1%positive
              (Stub.sent_world "GET") (Stub.sent "GET") (Stub.sent "GET")
              (Response.mk 200 (inl Stub.no_body))
              eq_refl eq_refl eq_refl Stub.no_body eq_refl eq_refl)
    as (message & Hraise & -> & _).
  exact Hraise.
Defined.

(** A POST on the sample options object. *)
Lemma verbs_write_options_in_place_witness :
  optionsHeap Stub.world0 !! 1%positive = Some Stub.options0 /\
  Request.post (G := Stub.globals (inr (Response.mk 201 (inr Stub.person))))
    (Request.mk Stub.accept) "/people" Stub.person 1%positive Stub.world0 =
  Request._fetchWithLogging
    (G := Stub.globals (inr (Response.mk 201 (inr Stub.person))))
    (Request.mk Stub.accept) "/people" 1%positive
    (mkWorld
       {[ 1%positive :=
            RequestInit.mk (Some "POST") (Some "[document]")
              [("Accept", "application/vnd.api+json")]
              [("credentials", "same-origin")] ]}
       ∅ []).
Proof.
  split; [reflexivity|].
  destruct (verbs_write_options_in_place
              (G := Stub.globals (inr (Response.mk 201 (inr Stub.person))))
              (Request.mk Stub.accept) "/people" Stub.person 1%positive
              Stub.world0 Stub.options0 eq_refl)
    as (_ & _ & Hpost & _).
  rewrite Hpost. reflexivity.
Defined.

(** A GET whose transport fails with [Stub.offline]. *)
Lemma transport_failure_raises_response_error_witness :
  (optionsHeap (Stub.sent_world "GET") !! 1%positive = Some (Stub.sent "GET") /\
   MiddlewareStack.beforeFetch Stub.accept "/people/1" (Stub.sent "GET") =
     (Stub.sent "GET", None)) /\
  raises_ResponseError
    (Request._fetchWithLogging (G := Stub.globals (inl Stub.offline))
       (Request.mk Stub.accept) "/people/1" 1%positive (Stub.sent_world "GET"))
    None "Failed to fetch" (Some Stub.offline).
Proof.
  split; [repeat split|].
  destruct (transport_failure_raises_response_error (G := Stub.globals (inl Stub.offline))
              (Request.mk Stub.accept) "/people/1" 1%positive
              (Stub.sent_world "GET") (Stub.sent "GET") (Stub.sent "GET")
              Stub.offline eq_refl eq_refl eq_refl)
    as (message & Hraise & Hmessage & _).
  rewrite Hmessage in Hraise by discriminate. exact Hraise.
Defined.

(** A DELETE answered with 200 behind an after-filter that always throws. *)
Lemma delete_short_circuit_skips_afterFetch_witness :
  (optionsHeap Stub.world0 !! 1%positive = Some Stub.options0 /\
   MiddlewareStack.beforeFetch Stub.reject_after "/people/1" (Stub.sent "DELETE") =
     (Stub.sent "DELETE", None) /\
   RequestInit.method (Stub.sent "DELETE") = Some "DELETE" /\
   MiddlewareStack.afterFetch Stub.reject_after
     (Response.mk 200 (inr Stub.person)) Stub.person = Some Stub.abort) /\
  fst (Request.delete
         (G := Stub.globals (inr (Response.mk 200 (inr Stub.person))))
         (Request.mk Stub.reject_after) "/people/1" 1%positive Stub.world0)
    = Ok 1%positive /\
  afterFetch_calls
    (trace (snd (Request.delete
       (G := Stub.globals (inr (Response.mk 200 (inr Stub.person))))
       (Request.mk Stub.reject_after) "/people/1" 1%positive Stub.world0))) = O.
Proof.
  destruct (delete_short_circuit_skips_afterFetch
              (G := Stub.globals (inr (Response.mk 200 (inr Stub.person))))
              "/people/1" 1%positive Stub.world0 Stub.options0
              (Stub.sent "DELETE") (Response.mk 200 (inr Stub.person))
              eq_refl eq_refl (or_introl eq_refl)
              (Request.mk Stub.reject_after) eq_refl eq_refl)
    as (Hok & Hcalls & _).
  split; [repeat split|]. split; [exact Hok | exact Hcalls].
Defined.

(** * Further properties of the pipeline *)

Section Coverage.
Context `{G : Globals}.
Variable this : Request.t.

(** ** What the classification step leaves alone *)

Section Step.
Variables (w : World) (response options : loc).
Variables (o : RequestInit.t) (r : JsonapiResponse.t).
Hypothesis Hoptions : optionsHeap w !! options = Some o.
Hypothesis Hresponse : responseHeap w !! response = Some r.

(** The step only appends to the trace, and never a transport call. *)
Lemma handleResponse_trace :
  exists events,
    trace (snd (Request._handleResponse this response options w)) =
      trace w ++ events /\
    count is_Fetch events = O.
Proof.
  unfold Request._handleResponse, Request._logInvalidJSON. run.
  rewrite Hoptions, Hresponse.
  destruct (wasDelete _ _); [exists []; rewrite app_nil_r; split; reflexivity|].
  destruct (Response.json _) as [e|j0]; simpl.
  { rewrite <- !app_assoc. eexists. split; reflexivity. }
  destruct (MiddlewareStack.afterFetch _ _ _); simpl.
  { rewrite <- !app_assoc. eexists. split; reflexivity. }
  destruct (_ >=? 500)%Z; simpl.
  { rewrite <- !app_assoc. eexists. split; reflexivity. }
  destruct (_ =? 422)%Z; simpl.
  { rewrite <- !app_assoc. eexists. split; reflexivity. }
  destruct (data_undefined j0) as [[|]|t]; simpl.
  - destruct (_ =? 404)%Z; simpl; rewrite <- !app_assoc;
      eexists; split; reflexivity.
  - rewrite <- !app_assoc. eexists. split; reflexivity.
  - rewrite <- !app_assoc. eexists. split; reflexivity.
Qed.

(** A step that throws has not written any response object. *)
Lemma handleResponse_throw_responseHeap t w' :
  Request._handleResponse this response options w = (Throw t, w') ->
  responseHeap w' = responseHeap w.
Proof.
  unfold Request._handleResponse, Request._logInvalidJSON. run.
  rewrite Hoptions, Hresponse.
  destruct (wasDelete _ _); [discriminate|].
  destruct (Response.json _) as [e|j0]; simpl; [intros [= _ <-]; reflexivity|].
  destruct (MiddlewareStack.afterFetch _ _ _); simpl;
    [intros [= _ <-]; reflexivity|].
  destruct (_ >=? 500)%Z; simpl; [intros [= _ <-]; reflexivity|].
  destruct (_ =? 422)%Z; simpl; [discriminate|].
  destruct (data_undefined j0) as [[|]|t0]; simpl.
  - destruct (_ =? 404)%Z; simpl; intros [= _ <-]; reflexivity.
  - discriminate.
  - intros [= _ <-]. reflexivity.
Qed.

(** What a step throws is a [TypeError] or a [ResponseError] that has a
    message. *)
Lemma handleResponse_throw_kind t w' :
  Request._handleResponse this response options w = (Throw t, w') ->
  (exists m, t = TypeError m) \/
  (exists e, t = ThrowResponseError e /\ ResponseError.message e <> "").
Proof.
  unfold Request._handleResponse, Request._logInvalidJSON. run.
  rewrite Hoptions, Hresponse.
  destruct (wasDelete _ _); [discriminate|].
  destruct (Response.json _) as [e|j0]; simpl.
  { intros [= <- _]. right. eexists. split; [reflexivity|discriminate]. }
  destruct (MiddlewareStack.afterFetch _ _ _); simpl.
  { intros [= <- _]. right. eexists. split; [reflexivity|discriminate]. }
  destruct (_ >=? 500)%Z; simpl.
  { intros [= <- _]. right. eexists. split; [reflexivity|discriminate]. }
  destruct (_ =? 422)%Z; simpl; [discriminate|].
  destruct (data_undefined j0) as [[|]|t0] eqn:Hdata; simpl.
  - destruct (_ =? 404)%Z; simpl; intros [= <- _]; right; eexists;
      (split; [reflexivity|discriminate]).
  - discriminate.
  - intros [= <- _]. left. destruct j0; try discriminate.
    injection Hdata as <-. eexists. reflexivity.
Qed.

(** The step writes no response object but the one it classifies. *)
Lemma handleResponse_other_responses l :
  l <> response ->
  responseHeap (snd (Request._handleResponse this response options w)) !! l =
  responseHeap w !! l.
Proof.
  intros Hl.
  destruct (Request._handleResponse this response options w) as [[[]|t] w'] eqn:Hc.
  - simpl.
    destruct (handleResponse_returns this _ _ _ _ _ Hoptions Hresponse _ Hc)
      as [[_ ->] | [_ (j & _ & ->)]]; [reflexivity|].
    apply lookup_insert_ne. congruence.
  - simpl. rewrite (handleResponse_throw_responseHeap _ _ Hc). reflexivity.
Qed.

(** A document without [data], on a status that is neither an error of
    the server, nor 422, nor 404. *)
Lemma handleResponse_no_data j :
  wasDelete o (Response.status (JsonapiResponse.response r)) = false ->
  Response.json (JsonapiResponse.response r) = inr j ->
  MiddlewareStack.afterFetch (Request.middleware this)
    (JsonapiResponse.response r) j = None ->
  (Response.status (JsonapiResponse.response r) < 500)%Z ->
  Response.status (JsonapiResponse.response r) <> 422%Z ->
  Response.status (JsonapiResponse.response r) <> 404%Z ->
  data_undefined j = Ok true ->
  Request._handleResponse this response options w =
    (Throw (ThrowResponseError
       (ResponseError.mk (Some response) "invalid json" None)),
     mkWorld (optionsHeap w) (responseHeap w)
       (trace w ++ [BodyJson response; AfterFetch response j;
                    BodyText response;
                    LoggerDebug "Invalid Response JSON: [object Promise]"])).
Proof.
  intros Hd Hj Ha Hs H422 H404 Hdata.
  unfold Request._handleResponse, Request._logInvalidJSON. run.
  rewrite Hoptions, Hresponse, Hd, Hj, Ha.
  replace (Response.status (JsonapiResponse.response r) >=? 500)%Z
    with false by lia.
  replace (Response.status (JsonapiResponse.response r) =? 422)%Z
    with false by lia.
  simpl. rewrite Hdata.
  replace (Response.status (JsonapiResponse.response r) =? 404)%Z
    with false by lia.
  simpl. rewrite <- !app_assoc. reflexivity.
Qed.

(** The document [null], on a status below 500 other than 422. *)
Lemma handleResponse_null :
  wasDelete o (Response.status (JsonapiResponse.response r)) = false ->
  Response.json (JsonapiResponse.response r) = inr JNull ->
  MiddlewareStack.afterFetch (Request.middleware this)
    (JsonapiResponse.response r) JNull = None ->
  (Response.status (JsonapiResponse.response r) < 500)%Z ->
  Response.status (JsonapiResponse.response r) <> 422%Z ->
  exists m,
    Request._handleResponse this response options w =
      (Throw (TypeError m),
       mkWorld (optionsHeap w) (responseHeap w)
         (trace w ++ [BodyJson response; AfterFetch response JNull])).
Proof.
  intros Hd Hj Ha Hs H422.
  unfold Request._handleResponse, Request._logInvalidJSON. run.
  rewrite Hoptions, Hresponse, Hd, Hj, Ha.
  replace (Response.status (JsonapiResponse.response r) >=? 500)%Z
    with false by lia.
  replace (Response.status (JsonapiResponse.response r) =? 422)%Z
    with false by lia.
  simpl. rewrite <- !app_assoc. eexists. reflexivity.
Qed.

End Step.

(** ** The run of a call, whatever its outcome *)

Lemma or_default_not_empty (a : option string) (b : string) :
  b <> "" -> or_default a b <> "".
Proof.
  intros Hb. unfold or_default. destruct a as [[|c s]|]; [exact Hb| |exact Hb].
  discriminate.
Qed.


(** A call whose options are missing stops at once. *)
Lemma fetchWithLogging_no_options url options w :
  optionsHeap w !! options = None ->
  Request._fetchWithLogging this url options w =
    (Throw (TypeError "options is undefined"), w).
Proof.
  intros Ho. unfold Request._fetchWithLogging, bind, read_options.
  rewrite Ho. reflexivity.
Qed.

(** The run of a call that the transport answered: the classification
    step throws and the call with it, leaving the response object as it
    was delivered; or the step returns and the call returns the response
    after the debug line of its payload. *)
Lemma fetchWithLogging_answered url options w o o' resp :
  optionsHeap w !! options = Some o ->
  MiddlewareStack.beforeFetch (Request.middleware this) url o = (o', None) ->
  fetch url o' = inr resp ->
  (exists t w1,
     Request._handleResponse this (next_response w) options
       (classification_world w url options o o' resp) = (Throw t, w1) /\
     Request._fetchWithLogging this url options w = (Throw t, w1)) \/
  (exists w1 r1,
     Request._handleResponse this (next_response w) options
       (classification_world w url options o o' resp) = (Ok tt, w1) /\
     responseHeap w1 !! next_response w = Some r1 /\
     Request._fetchWithLogging this url options w =
       (Ok (next_response w),
        mkWorld (optionsHeap w1) (responseHeap w1)
          (trace w1 ++ [response_line (JsonapiResponse.jsonPayload r1)]))).
Proof.
  intros Ho Hb Hf.
  pose proof (classification_world_options w url options o o' resp) as Hco.
  pose proof (classification_world_response w url options o o' resp) as Hcr.
  destruct (Request._handleResponse this (next_response w) options
              (classification_world w url options o o' resp))
    as [[[]|t] w1] eqn:Hc.
  - right.
    assert (exists r1, responseHeap w1 !! next_response w = Some r1) as [r1 Hr1].
    { destruct (handleResponse_returns this _ _ _ _ _ Hco Hcr _ Hc)
        as [[_ ->] | [_ (j & _ & ->)]].
      - eexists. exact Hcr.
      - eexists. apply lookup_insert_eq. }
    exists w1, r1. repeat split; [exact Hr1|].
    exact (fetchWithLogging_classification_returns this _ _ _ _ _ _ _ _
             Ho Hb Hf Hc Hr1).
  - left. exists t, w1. split; [reflexivity|].
    exact (fetchWithLogging_classification_throws this _ _ _ _ _ _ _ _
             Ho Hb Hf Hc).
Qed.

(** Once the [beforeFetch] hook has returned, the trace of the call
    starts with the request line, the hook and the transport, in this
    order, and the transport is not called again. *)
Lemma fetchWithLogging_trace_after_hook url options w o o' :
  optionsHeap w !! options = Some o ->
  MiddlewareStack.beforeFetch (Request.middleware this) url o = (o', None) ->
  exists rest,
    trace (snd (Request._fetchWithLogging this url options w)) =
      trace w ++ [request_line o url; BeforeFetch url o; Fetch url o'] ++ rest /\
    count is_Fetch rest = O.
Proof.
  intros Ho Hb.
  destruct (fetch url o') as [e|resp] eqn:Hf.
  { rewrite (fetchWithLogging_transport_rejects this _ _ _ _ _ _ Ho Hb Hf).
    exists []. split; reflexivity. }
  pose proof (classification_world_options w url options o o' resp) as Hco.
  pose proof (classification_world_response w url options o o' resp) as Hcr.
  destruct (handleResponse_trace _ _ _ _ _ Hco Hcr) as (events & Htrace & Hcount).
  destruct (fetchWithLogging_answered _ _ _ _ _ _ Ho Hb Hf)
    as [(t & w1 & Hc & ->) | (w1 & r1 & Hc & Hr1 & ->)];
    rewrite Hc in Htrace; simpl in *; rewrite Htrace.
  - exists events. rewrite <- app_assoc. split; [reflexivity | exact Hcount].
  - exists (events ++ [response_line (JsonapiResponse.jsonPayload r1)]).
    rewrite <- !app_assoc. split; [reflexivity|].
    rewrite count_app, Hcount. reflexivity.
Qed.

(** A call writes no response object but the one it creates. *)
Lemma fetchWithLogging_other_responses url options w l :
  l <> next_response w ->
  responseHeap (snd (Request._fetchWithLogging this url options w)) !! l =
  responseHeap w !! l.
Proof.
  intros Hl.
  destruct (optionsHeap w !! options) as [o|] eqn:Ho.
  2: { rewrite (fetchWithLogging_no_options _ _ _ Ho). reflexivity. }
  destruct (MiddlewareStack.beforeFetch (Request.middleware this) url o)
    as [o' [e|]] eqn:Hb.
  { rewrite (fetchWithLogging_hook_throws this _ _ _ _ _ _ Ho Hb). reflexivity. }
  destruct (fetch url o') as [e|resp] eqn:Hf.
  { rewrite (fetchWithLogging_transport_rejects this _ _ _ _ _ _ Ho Hb Hf).
    reflexivity. }
  pose proof (handleResponse_other_responses _ _ _ _ _
                (classification_world_options w url options o o' resp)
                (classification_world_response w url options o o' resp)
                l Hl) as Hframe.
  assert (Hcw : responseHeap (classification_world w url options o o' resp) !! l
                = responseHeap w !! l)
    by (apply lookup_insert_ne; congruence).
  destruct (fetchWithLogging_answered _ _ _ _ _ _ Ho Hb Hf)
    as [(t & w1 & Hc & ->) | (w1 & r1 & Hc & Hr1 & ->)];
    rewrite Hc in Hframe; simpl in *; congruence.
Qed.

(** ** Outcomes of classification that the hooks and the document decide *)

Section Answered.
Variables (url : string) (options : loc) (w : World).
Variables (o o' : RequestInit.t) (resp : Response.t).
Hypothesis Hoptions : optionsHeap w !! options = Some o.
Hypothesis Hbefore :
  MiddlewareStack.beforeFetch (Request.middleware this) url o = (o', None).
Hypothesis Hfetch : fetch url o' = inr resp.
Hypothesis Hdelete : wasDelete o' (Response.status resp) = false.

(** X1.  When the [afterFetch] hook throws, the call raises a
    [ResponseError] with the fixed message, the response and the hook's
    error, whatever the status and the document are; the response object
    stays without payload. *)
Theorem afterFetch_failure_raises_response_error j e :
  Response.json resp = inr j ->
  MiddlewareStack.afterFetch (Request.middleware this) resp j = Some e ->
  raises_ResponseError (Request._fetchWithLogging this url options w)
    (Some (next_response w))
    "afterFetch failed; review middleware.afterFetch stack" (Some e) /\
  responseHeap (snd (Request._fetchWithLogging this url options w))
    !! next_response w = Some (JsonapiResponse.mk resp None).
Proof.
  intros Hj Ha. unfold raises_ResponseError.
  pose proof (handleResponse_afterFetch_raises this _ _ _ _ _
                (classification_world_options w url options o o' resp)
                (classification_world_response w url options o o' resp)
                j e Hdelete Hj Ha) as Hc.
  rewrite (fetchWithLogging_classification_throws this _ _ _ _ _ _ _ _
             Hoptions Hbefore Hfetch Hc).
  split; [reflexivity|]. apply lookup_insert_eq.
Qed.

(** X2.  A parsed document other than [null] without a top-level [data]
    member, on a status below 500 that is neither 422 nor 404, raises a
    [ResponseError] with message ["invalid json"] and no original error;
    the call ends with the text read and the debug line of the invalid
    body. *)
Theorem missing_data_raises_invalid_json j :
  Response.json resp = inr j ->
  MiddlewareStack.afterFetch (Request.middleware this) resp j = None ->
  (Response.status resp < 500)%Z ->
  Response.status resp <> 422%Z ->
  Response.status resp <> 404%Z ->
  data_undefined j = Ok true ->
  raises_ResponseError (Request._fetchWithLogging this url options w)
    (Some (next_response w)) "invalid json" None /\
  trace (snd (Request._fetchWithLogging this url options w)) =
    trace w ++
    [request_line o url; BeforeFetch url o; Fetch url o';
     BodyJson (next_response w); AfterFetch (next_response w) j;
     BodyText (next_response w);
     LoggerDebug "Invalid Response JSON: [object Promise]"].
Proof.
  intros Hj Ha Hs H422 H404 Hdata. unfold raises_ResponseError.
  pose proof (handleResponse_no_data _ _ _ _ _
                (classification_world_options w url options o o' resp)
                (classification_world_response w url options o o' resp)
                j Hdelete Hj Ha Hs H422 H404 Hdata) as Hc.
  rewrite (fetchWithLogging_classification_throws this _ _ _ _ _ _ _ _
             Hoptions Hbefore Hfetch Hc).
  simpl. rewrite <- app_assoc. split; reflexivity.
Qed.

(** X3.  A body that parses to [null], on a status below 500 other than
    422, makes the call throw a [TypeError] of the runtime, which is
    neither of the two typed errors: the read of [json.data] fails. *)
Theorem null_document_raises_TypeError :
  Response.json resp = inr JNull ->
  MiddlewareStack.afterFetch (Request.middleware this) resp JNull = None ->
  (Response.status resp < 500)%Z ->
  Response.status resp <> 422%Z ->
  exists m,
    fst (Request._fetchWithLogging this url options w) = Throw (TypeError m).
Proof.
  intros Hj Ha Hs H422.
  destruct (handleResponse_null _ _ _ _ _
              (classification_world_options w url options o o' resp)
              (classification_world_response w url options o o' resp)
              Hdelete Hj Ha Hs H422) as (m & Hc).
  exists m.
  rewrite (fetchWithLogging_classification_throws this _ _ _ _ _ _ _ _
             Hoptions Hbefore Hfetch Hc).
  reflexivity.
Qed.

(** X4.  A parsed document with a top-level [data] member, on a status
    below 500, is the payload of the response the call returns; the call
    reads the body once, as JSON, and ends with the debug line of the
    payload. *)
Theorem document_with_data_is_returned j :
  Response.json resp = inr j ->
  MiddlewareStack.afterFetch (Request.middleware this) resp j = None ->
  (Response.status resp < 500)%Z ->
  data_undefined j = Ok false ->
  fst (Request._fetchWithLogging this url options w) = Ok (next_response w) /\
  responseHeap (snd (Request._fetchWithLogging this url options w))
    !! next_response w = Some (JsonapiResponse.mk resp (Some j)) /\
  trace (snd (Request._fetchWithLogging this url options w)) =
    trace w ++
    [request_line o url; BeforeFetch url o; Fetch url o';
     BodyJson (next_response w); AfterFetch (next_response w) j;
     response_line (Some j)].
Proof.
  intros Hj Ha Hs Hdata.
  pose proof (handleResponse_data this _ _ _ _ _
                (classification_world_options w url options o o' resp)
                (classification_world_response w url options o o' resp)
                j Hj Ha Hdelete Hs Hdata) as Hc.
  rewrite (fetchWithLogging_classification_returns this _ _ _ _ _ _ _
             (JsonapiResponse.mk resp (Some j))
             Hoptions Hbefore Hfetch Hc (lookup_insert_eq _ _ _)).
  simpl. split; [reflexivity|]. split; [apply lookup_insert_eq|].
  rewrite <- !app_assoc. reflexivity.
Qed.

End Answered.

(** ** Invariants of a call *)

(** X5.  A call invokes the transport at most once: not at all when it
    raises the pre-fetch error, and exactly once otherwise, whether it
    returns or throws. *)
Theorem transport_called_once_unless_prefetch_error url options w o :
  optionsHeap w !! options = Some o ->
  let out := Request._fetchWithLogging this url options w in
  ((exists e, fst out = Throw (ThrowRequestError e)) /\
   transport_calls (trace (snd out)) = transport_calls (trace w)) \/
  ((forall e, fst out <> Throw (ThrowRequestError e)) /\
   transport_calls (trace (snd out)) = S (transport_calls (trace w))).
Proof.
  intros Ho out. unfold out.
  destruct (MiddlewareStack.beforeFetch (Request.middleware this) url o)
    as [o' [e|]] eqn:Hb.
  { left. rewrite (fetchWithLogging_hook_throws this _ _ _ _ _ _ Ho Hb). simpl.
    split; [eexists; reflexivity|].
    unfold transport_calls. rewrite count_app. simpl. lia. }
  right.
  destruct (fetchWithLogging_trace_after_hook _ _ _ _ _ Ho Hb)
    as (rest & -> & Hcount).
  split.
  - intros e.
    destruct (fetch url o') as [e0|resp] eqn:Hf.
    + rewrite (fetchWithLogging_transport_rejects this _ _ _ _ _ _ Ho Hb Hf).
      discriminate.
    + destruct (fetchWithLogging_answered _ _ _ _ _ _ Ho Hb Hf)
        as [(t & w1 & Hc & ->) | (w1 & r1 & Hc & Hr1 & ->)]; [|discriminate].
      simpl. intros [= ->].
      destruct (handleResponse_throw_kind _ _ _ _ _
                  (classification_world_options w url options o o' resp)
                  (classification_world_response w url options o o' resp)
                  _ _ Hc) as [(m & Hm) | (e1 & He1 & _)]; discriminate.
  - unfold transport_calls. rewrite !count_app, Hcount. simpl. lia.
Qed.

(** X6.  A call that throws leaves every response object without a
    payload it did not have: the store holds the response objects it held
    before and, if the transport answered, the new response object,
    undecorated. *)
Theorem failed_call_leaves_response_undecorated url options w t l r :
  fst (Request._fetchWithLogging this url options w) = Throw t ->
  responseHeap (snd (Request._fetchWithLogging this url options w)) !! l =
    Some r ->
  responseHeap w !! l = Some r \/
  (l = next_response w /\ JsonapiResponse.jsonPayload r = None).
Proof.
  intros Hthrow Hl.
  destruct (decide (l = next_response w)) as [->|Hne].
  2: { left. rewrite <- Hl. symmetry.
       apply fetchWithLogging_other_responses. exact Hne. }
  destruct (optionsHeap w !! options) as [o|] eqn:Ho.
  2: { rewrite (fetchWithLogging_no_options _ _ _ Ho) in Hl. left. exact Hl. }
  destruct (MiddlewareStack.beforeFetch (Request.middleware this) url o)
    as [o' [e|]] eqn:Hb.
  { rewrite (fetchWithLogging_hook_throws this _ _ _ _ _ _ Ho Hb) in Hl.
    left. exact Hl. }
  destruct (fetch url o') as [e|resp] eqn:Hf.
  { rewrite (fetchWithLogging_transport_rejects this _ _ _ _ _ _ Ho Hb Hf) in Hl.
    left. exact Hl. }
  destruct (fetchWithLogging_answered _ _ _ _ _ _ Ho Hb Hf)
    as [(t1 & w1 & Hc & Hout) | (w1 & r1 & Hc & Hr1 & Hout)];
    rewrite Hout in Hthrow, Hl; [|discriminate].
  simpl in Hl.
  rewrite (handleResponse_throw_responseHeap _ _ _ _ _
             (classification_world_options w url options o o' resp)
             (classification_world_response w url options o o' resp)
             _ _ Hc) in Hl.
  rewrite classification_world_response in Hl. injection Hl as <-.
  right. split; reflexivity.
Qed.


(** X8.  Every [ResponseError] that a call raises has a message that is
    not empty. *)
Theorem response_error_message_never_empty url options w e :
  fst (Request._fetchWithLogging this url options w) =
    Throw (ThrowResponseError e) ->
  ResponseError.message e <> "".
Proof.
  intros Hthrow.
  destruct (optionsHeap w !! options) as [o|] eqn:Ho.
  2: { rewrite (fetchWithLogging_no_options _ _ _ Ho) in Hthrow. discriminate. }
  destruct (MiddlewareStack.beforeFetch (Request.middleware this) url o)
    as [o' [e0|]] eqn:Hb.
  { rewrite (fetchWithLogging_hook_throws this _ _ _ _ _ _ Ho Hb) in Hthrow.
    discriminate. }
  destruct (fetch url o') as [e0|resp] eqn:Hf.
  { rewrite (fetchWithLogging_transport_rejects this _ _ _ _ _ _ Ho Hb Hf)
      in Hthrow.
    injection Hthrow as <-.
    change (or_default (Some (Error.message e0)) "Invalid Response" <> "").
    apply or_default_not_empty. discriminate. }
  destruct (fetchWithLogging_answered _ _ _ _ _ _ Ho Hb Hf)
    as [(t1 & w1 & Hc & Hout) | (w1 & r1 & Hc & Hr1 & Hout)];
    rewrite Hout in Hthrow; [|discriminate].
  simpl in Hthrow. injection Hthrow as ->.
  destruct (handleResponse_throw_kind _ _ _ _ _
              (classification_world_options w url options o o' resp)
              (classification_world_response w url options o o' resp)
              _ _ Hc) as [(m & Hm) | (e1 & He1 & Hmessage)]; [discriminate|].
  injection He1 as ->. exact Hmessage.
Qed.

(** ** The options object across the verbs *)

(** The options heap after a verb method delegated, for the options [o1]
    it wrote. *)
Lemma fetchWithLogging_written_options url options w o1 :
  optionsHeap
    (snd (Request._fetchWithLogging this url options
            (mkWorld (<[options := o1]> (optionsHeap w))
                     (responseHeap w) (trace w)))) =
  <[options := fst (MiddlewareStack.beforeFetch (Request.middleware this) url o1)]>
    (optionsHeap w).
Proof.
  erewrite fetchWithLogging_optionsHeap by apply lookup_insert_eq.
  simpl. apply insert_insert_eq.
Qed.

(** X9.  Whatever the outcome of a verb method, the only options object
    written is the caller's: it ends as the [beforeFetch] hook left the
    object with [method] (and [body]) written by the verb; no other
    options object changes and none is created. *)
Theorem verbs_write_only_the_callers_options url payload options w o :
  optionsHeap w !! options = Some o ->
  let hooked (method : string) (body : option string) : RequestInit.t :=
    fst (MiddlewareStack.beforeFetch (Request.middleware this) url
           (RequestInit.mk (Some method) body
              (RequestInit.headers o) (RequestInit.others o))) in
  optionsHeap (snd (Request.get this url options w)) =
    <[options := hooked "GET" (RequestInit.body o)]> (optionsHeap w) /\
  optionsHeap (snd (Request.delete this url options w)) =
    <[options := hooked "DELETE" (RequestInit.body o)]> (optionsHeap w) /\
  optionsHeap (snd (Request.post this url payload options w)) =
    <[options := hooked "POST" (Some (JSON_stringify payload 0))]>
      (optionsHeap w) /\
  optionsHeap (snd (Request.patch this url payload options w)) =
    <[options := hooked "PATCH" (Some (JSON_stringify payload 0))]>
      (optionsHeap w).
Proof.
  intros Ho hooked.
  assert (Hbody : forall m b,
    Request.assign_body options b
      (mkWorld (<[options := RequestInit.set_method m o]> (optionsHeap w))
               (responseHeap w) (trace w)) =
    (Ok tt,
     mkWorld (<[options := RequestInit.mk (Some m) (Some b)
                             (RequestInit.headers o) (RequestInit.others o)]>
                (optionsHeap w))
             (responseHeap w) (trace w))).
  { intros m b. erewrite assign_body_run by apply lookup_insert_eq.
    simpl. rewrite insert_insert_eq. reflexivity. }
  unfold Request.get, Request.delete, Request.post, Request.patch, bind.
  rewrite !(assign_method_run _ _ _ _ Ho). cbv beta iota.
  rewrite !Hbody. cbv beta iota.
  rewrite !fetchWithLogging_written_options.
  repeat split.
Qed.

(** X10.  Once the [beforeFetch] hook has returned, and whatever happens
    next, the call has first logged the request line, then run the hook on
    the options as it found them, then invoked the transport with the
    options as the hook left them. *)
Theorem transport_receives_options_as_hook_left_them url options w o o' :
  optionsHeap w !! options = Some o ->
  MiddlewareStack.beforeFetch (Request.middleware this) url o = (o', None) ->
  exists rest,
    trace (snd (Request._fetchWithLogging this url options w)) =
      trace w ++ [request_line o url; BeforeFetch url o; Fetch url o'] ++ rest.
Proof.
  intros Ho Hb.
  destruct (fetchWithLogging_trace_after_hook _ _ _ _ _ Ho Hb)
    as (rest & Htrace & _).
  exists rest. exact Htrace.
Qed.

(** X11.  A [get] on the options object of an earlier [post] sends the
    body of that [post]: [get] writes [method] only, so with hooks that
    leave the options alone the transport receives a GET with the
    serialised payload as its body. *)
Theorem get_after_post_sends_the_post_body url1 url2 payload options w o :
  optionsHeap w !! options = Some o ->
  let posted :=
    RequestInit.mk (Some "POST") (Some (JSON_stringify payload 0))
      (RequestInit.headers o) (RequestInit.others o) in
  let got :=
    RequestInit.mk (Some "GET") (Some (JSON_stringify payload 0))
      (RequestInit.headers o) (RequestInit.others o) in
  fst (MiddlewareStack.beforeFetch (Request.middleware this) url1 posted) =
    posted ->
  MiddlewareStack.beforeFetch (Request.middleware this) url2 got = (got, None) ->
  In (Fetch url2 got)
    (trace (snd (Request.get this url2 options
                   (snd (Request.post this url1 payload options w))))).
Proof.
  intros Ho posted got Hfirst Hsecond.
  set (w1 := snd (Request.post this url1 payload options w)).
  assert (Ho1 : optionsHeap w1 !! options = Some posted).
  { unfold w1, Request.post, bind.
    rewrite (assign_method_run _ _ _ _ Ho). cbv beta iota.
    erewrite assign_body_run by apply lookup_insert_eq.
    cbv beta iota. simpl optionsHeap. rewrite insert_insert_eq.
    rewrite fetchWithLogging_written_options.
    rewrite lookup_insert_eq. f_equal. exact Hfirst. }
  unfold Request.get, bind.
  rewrite (assign_method_run _ _ _ _ Ho1). cbv beta iota.
  assert (Hgot : optionsHeap
            (mkWorld (<[options := RequestInit.set_method "GET" posted]>
                        (optionsHeap w1)) (responseHeap w1) (trace w1))
            !! options = Some got) by apply lookup_insert_eq.
  destruct (fetchWithLogging_trace_after_hook _ _ _ _ _ Hgot Hsecond)
    as (rest & -> & _).
  apply in_or_app. right. simpl. right. right. left. reflexivity.
Qed.

(** X12.  On a status other than 200, 202 and 204 the method of the
    request has no part in the classification: with any other options
    object in place the step has the same outcome, the same effect on the
    response objects and the same trace. *)
Theorem classification_ignores_method_outside_short_circuit
    w response options o1 o2 r :
  optionsHeap w !! options = Some o1 ->
  responseHeap w !! response = Some r ->
  Response.status (JsonapiResponse.response r) <> 200%Z ->
  Response.status (JsonapiResponse.response r) <> 202%Z ->
  Response.status (JsonapiResponse.response r) <> 204%Z ->
  let w2 := mkWorld (<[options := o2]> (optionsHeap w))
                    (responseHeap w) (trace w) in
  fst (Request._handleResponse this response options w2) =
    fst (Request._handleResponse this response options w) /\
  responseHeap (snd (Request._handleResponse this response options w2)) =
    responseHeap (snd (Request._handleResponse this response options w)) /\
  trace (snd (Request._handleResponse this response options w2)) =
    trace (snd (Request._handleResponse this response options w)).
Proof.
  intros Ho Hr H200 H202 H204 w2.
  unfold Request._handleResponse, Request._logInvalidJSON, w2. run.
  rewrite lookup_insert_eq, Ho. simpl. rewrite Hr. simpl.
  rewrite !(wasDelete_false_other_status _ _ H200 H202 H204).
  destruct (Response.json _) as [e|j0]; simpl; [repeat split|].
  destruct (MiddlewareStack.afterFetch _ _ _); simpl; [repeat split|].
  destruct (_ >=? 500)%Z; simpl; [repeat split|].
  destruct (_ =? 422)%Z; simpl; [repeat split|].
  destruct (data_undefined j0) as [[|]|t]; simpl; [|repeat split..].
  destruct (_ =? 404)%Z; simpl; repeat split.
Qed.

(** ** What the log and the errors tell *)

(** The first thing a call does is to log its request line. *)
Lemma fetchWithLogging_trace_starts url options w o :
  optionsHeap w !! options = Some o ->
  exists rest,
    trace (snd (Request._fetchWithLogging this url options w)) =
      trace w ++ request_line o url :: rest.
Proof.
  intros Ho.
  destruct (MiddlewareStack.beforeFetch (Request.middleware this) url o)
    as [o' [e|]] eqn:Hb.
  - rewrite (fetchWithLogging_hook_throws this _ _ _ _ _ _ Ho Hb).
    eexists. reflexivity.
  - destruct (fetchWithLogging_trace_after_hook _ _ _ _ _ Ho Hb)
      as (rest & -> & _).
    eexists. reflexivity.
Qed.

(** X13.  A verb method logs its own name in the request line, whatever
    [method] the caller had put in the options and whatever the outcome:
    the line never shows the caller's method nor the placeholder for a
    missing one. *)
Theorem verbs_log_their_own_name url payload options w o :
  optionsHeap w !! options = Some o ->
  let line (verb : string) : Event :=
    LoggerInfo (colorize "cyan" (verb +:+ ": ") +:+ colorize "magenta" url) in
  (exists rest, trace (snd (Request.get this url options w)) =
                  trace w ++ line "GET" :: rest) /\
  (exists rest, trace (snd (Request.delete this url options w)) =
                  trace w ++ line "DELETE" :: rest) /\
  (exists rest, trace (snd (Request.post this url payload options w)) =
                  trace w ++ line "POST" :: rest) /\
  (exists rest, trace (snd (Request.patch this url payload options w)) =
                  trace w ++ line "PATCH" :: rest).
Proof.
  intros Ho line.
  assert (Hline : forall m b,
    exists rest,
      trace (snd (Request._fetchWithLogging this url options
                    (mkWorld
                       (<[options := RequestInit.mk (Some m) b
                                       (RequestInit.headers o)
                                       (RequestInit.others o)]> (optionsHeap w))
                       (responseHeap w) (trace w)))) =
        trace w ++
        LoggerInfo (colorize "cyan" (or_default (Some m) "UNDEFINED METHOD" +:+ ": ")
                    +:+ colorize "magenta" url) :: rest).
  { intros m b.
    exact (fetchWithLogging_trace_starts url options _ _
             (lookup_insert_eq _ _ _)). }
  assert (Hbody : forall m b,
    Request.assign_body options b
      (mkWorld (<[options := RequestInit.set_method m o]> (optionsHeap w))
               (responseHeap w) (trace w)) =
    (Ok tt,
     mkWorld (<[options := RequestInit.mk (Some m) (Some b)
                             (RequestInit.headers o) (RequestInit.others o)]>
                (optionsHeap w))
             (responseHeap w) (trace w))).
  { intros m b. erewrite assign_body_run by apply lookup_insert_eq.
    simpl. rewrite insert_insert_eq. reflexivity. }
  unfold Request.get, Request.delete, Request.post, Request.patch, bind.
  rewrite !(assign_method_run _ _ _ _ Ho). cbv beta iota.
  rewrite !Hbody. cbv beta iota.
  repeat split.
  - exact (Hline "GET" (RequestInit.body o)).
  - exact (Hline "DELETE" (RequestInit.body o)).
  - exact (Hline "POST" (Some (JSON_stringify payload 0))).
  - exact (Hline "PATCH" (Some (JSON_stringify payload 0))).
Qed.

(** A [ResponseError] thrown by the classification step carries the
    response it classified. *)
Lemma handleResponse_throw_response w response options o r e w' :
  optionsHeap w !! options = Some o ->
  responseHeap w !! response = Some r ->
  Request._handleResponse this response options w =
    (Throw (ThrowResponseError e), w') ->
  ResponseError.response e = Some response.
Proof.
  intros Ho Hr.
  unfold Request._handleResponse, Request._logInvalidJSON. run.
  rewrite Ho, Hr.
  destruct (wasDelete _ _); [discriminate|].
  destruct (Response.json _) as [e0|j0]; simpl; [intros [= <- _]; reflexivity|].
  destruct (MiddlewareStack.afterFetch _ _ _); simpl;
    [intros [= <- _]; reflexivity|].
  destruct (_ >=? 500)%Z; simpl; [intros [= <- _]; reflexivity|].
  destruct (_ =? 422)%Z; simpl; [discriminate|].
  destruct (data_undefined j0) as [[|]|t0] eqn:Hdata; simpl.
  - destruct (_ =? 404)%Z; simpl; intros [= <- _]; reflexivity.
  - discriminate.
  - destruct j0; try discriminate Hdata.
    injection Hdata as <-. discriminate.
Qed.

(** X14.  The two shapes of a [ResponseError]: it carries no response
    exactly when the transport itself failed, and otherwise it carries the
    response object the transport delivered, which is in the store. *)
Theorem response_error_has_no_response_iff_transport_failed
    url options w o o' e :
  optionsHeap w !! options = Some o ->
  MiddlewareStack.beforeFetch (Request.middleware this) url o = (o', None) ->
  fst (Request._fetchWithLogging this url options w) =
    Throw (ThrowResponseError e) ->
  (ResponseError.response e = None /\
   exists failure, fetch url o' = inl failure /\
                   ResponseError.originalError e = Some failure) \/
  (ResponseError.response e = Some (next_response w) /\
   exists resp, fetch url o' = inr resp /\
     responseHeap (snd (Request._fetchWithLogging this url options w))
       !! next_response w = Some (JsonapiResponse.mk resp None)).
Proof.
  intros Ho Hb Hthrow.
  destruct (fetch url o') as [failure|resp] eqn:Hf.
  { left.
    rewrite (fetchWithLogging_transport_rejects this _ _ _ _ _ _ Ho Hb Hf)
      in Hthrow.
    injection Hthrow as <-. split; [reflexivity|].
    exists failure. split; reflexivity. }
  right.
  pose proof (classification_world_options w url options o o' resp) as Hco.
  pose proof (classification_world_response w url options o o' resp) as Hcr.
  destruct (fetchWithLogging_answered _ _ _ _ _ _ Ho Hb Hf)
    as [(t1 & w1 & Hc & Hout) | (w1 & r1 & Hc & Hr1 & Hout)];
    rewrite Hout in Hthrow |- *; [|discriminate].
  simpl in Hthrow. injection Hthrow as ->. simpl.
  split.
  - exact (handleResponse_throw_response _ _ _ _ _ _ _ Hco Hcr Hc).
  - exists resp. split; [reflexivity|].
    rewrite (handleResponse_throw_responseHeap _ _ _ _ _ Hco Hcr _ _ Hc).
    exact Hcr.
Qed.

End Coverage.

(** ** The further properties at work on the stub collaborators *)

(** An after-filter that always throws, on a GET answered with 503: the
    error of the filter is raised, not that of the server. *)
Lemma afterFetch_failure_raises_response_error_witness :
  (optionsHeap (Stub.sent_world "GET") !! 1%positive = Some (Stub.sent "GET") /\
   wasDelete (Stub.sent "GET") 503 = false /\
   MiddlewareStack.afterFetch Stub.reject_after
     (Response.mk 503 (inr Stub.person)) Stub.person = Some Stub.abort) /\
  raises_ResponseError
    (Request._fetchWithLogging
       (G := Stub.globals (inr (Response.mk 503 (inr Stub.person))))
       (Request.mk Stub.reject_after) "/people/1" 1%positive
       (Stub.sent_world "GET"))
    (Some 1%positive) "afterFetch failed; review middleware.afterFetch stack"
    (Some Stub.abort).
Proof.
  split; [repeat split|].
  exact (proj1 (afterFetch_failure_raises_response_error
           (G := Stub.globals (inr (Response.mk 503 (inr Stub.person))))
           (Request.mk Stub.reject_after) "/people/1" 1%positive
           (Stub.sent_world "GET") (Stub.sent "GET") (Stub.sent "GET")
           (Response.mk 503 (inr Stub.person))
           eq_refl eq_refl eq_refl eq_refl Stub.person Stub.abort
           eq_refl eq_refl)).
Defined.

(** A GET answered with 400 and a document of errors. *)
Lemma missing_data_raises_invalid_json_witness :
  (optionsHeap (Stub.sent_world "GET") !! 1%positive = Some (Stub.sent "GET") /\
   wasDelete (Stub.sent "GET") 400 = false /\
   (400 < 500)%Z /\ 400%Z <> 422%Z /\ 400%Z <> 404%Z /\
   data_undefined Stub.validation_errors = Ok true) /\
  raises_ResponseError
    (Request._fetchWithLogging
       (G := Stub.globals (inr (Response.mk 400 (inr Stub.validation_errors))))
       (Request.mk Stub.accept) "/people" 1%positive (Stub.sent_world "GET"))
    (Some 1%positive) "invalid json" None.
Proof.
  assert (Hs : (400 < 500)%Z) by reflexivity.
  assert (H422 : 400%Z <> 422%Z) by discriminate.
  assert (H404 : 400%Z <> 404%Z) by discriminate.
  split; [repeat split; assumption|].
  exact (proj1 (missing_data_raises_invalid_json
           (G := Stub.globals (inr (Response.mk 400 (inr Stub.validation_errors))))
           (Request.mk Stub.accept) "/people" 1%positive (Stub.sent_world "GET")
           (Stub.sent "GET") (Stub.sent "GET")
           (Response.mk 400 (inr Stub.validation_errors))
           eq_refl eq_refl eq_refl eq_refl Stub.validation_errors
           eq_refl eq_refl Hs H422 H404 eq_refl)).
Defined.

(** A GET answered with 200 and the document [null]. *)
Lemma null_document_raises_TypeError_witness :
  (optionsHeap (Stub.sent_world "GET") !! 1%positive = Some (Stub.sent "GET") /\
   wasDelete (Stub.sent "GET") 200 = false /\
   (200 < 500)%Z /\ 200%Z <> 422%Z) /\
  exists m,
    fst (Request._fetchWithLogging
           (G := Stub.globals (inr (Response.mk 200 (inr JNull))))
           (Request.mk Stub.accept) "/people/1" 1%positive
           (Stub.sent_world "GET")) = Throw (TypeError m).
Proof.
  assert (Hs : (200 < 500)%Z) by reflexivity.
  assert (H422 : 200%Z <> 422%Z) by discriminate.
  split; [repeat split; assumption|].
  exact (null_document_raises_TypeError
           (G := Stub.globals (inr (Response.mk 200 (inr JNull))))
           (Request.mk Stub.accept) "/people/1" 1%positive
           (Stub.sent_world "GET") (Stub.sent "GET") (Stub.sent "GET")
           (Response.mk 200 (inr JNull))
           eq_refl eq_refl eq_refl eq_refl eq_refl eq_refl Hs H422).
Defined.

(** A GET answered with 200 and a document with [data]. *)
Lemma document_with_data_is_returned_witness :
  (optionsHeap (Stub.sent_world "GET") !! 1%positive = Some (Stub.sent "GET") /\
   wasDelete (Stub.sent "GET") 200 = false /\
   (200 < 500)%Z /\ data_undefined Stub.person = Ok false) /\
  fst (Request._fetchWithLogging
         (G := Stub.globals (inr (Response.mk 200 (inr Stub.person))))
         (Request.mk Stub.accept) "/people/1" 1%positive
         (Stub.sent_world "GET")) = Ok 1%positive.
Proof.
  assert (Hs : (200 < 500)%Z) by reflexivity.
  split; [repeat split; assumption|].
  exact (proj1 (document_with_data_is_returned
           (G := Stub.globals (inr (Response.mk 200 (inr Stub.person))))
           (Request.mk Stub.accept) "/people/1" 1%positive
           (Stub.sent_world "GET") (Stub.sent "GET") (Stub.sent "GET")
           (Response.mk 200 (inr Stub.person))
           eq_refl eq_refl eq_refl eq_refl Stub.person
           eq_refl eq_refl Hs eq_refl)).
Defined.

(** A GET that the transport fails: one transport call, no pre-fetch
    error. *)
Lemma transport_called_once_unless_prefetch_error_witness :
  optionsHeap (Stub.sent_world "GET") !! 1%positive = Some (Stub.sent "GET") /\
  (((exists e,
       fst (Request._fetchWithLogging (G := Stub.globals (inl Stub.offline))
              (Request.mk Stub.accept) "/people/1" 1%positive
              (Stub.sent_world "GET")) = Throw (ThrowRequestError e)) /\
    transport_calls
      (trace (snd (Request._fetchWithLogging
                     (G := Stub.globals (inl Stub.offline))
                     (Request.mk Stub.accept) "/people/1" 1%positive
                     (Stub.sent_world "GET")))) = O) \/
   ((forall e,
       fst (Request._fetchWithLogging (G := Stub.globals (inl Stub.offline))
              (Request.mk Stub.accept) "/people/1" 1%positive
              (Stub.sent_world "GET")) <> Throw (ThrowRequestError e)) /\
    transport_calls
      (trace (snd (Request._fetchWithLogging
                     (G := Stub.globals (inl Stub.offline))
                     (Request.mk Stub.accept) "/people/1" 1%positive
                     (Stub.sent_world "GET")))) = 1%nat)).
Proof.
  split; [reflexivity|].
  exact (transport_called_once_unless_prefetch_error
           (G := Stub.globals (inl Stub.offline))
           (Request.mk Stub.accept) "/people/1" 1%positive
           (Stub.sent_world "GET") (Stub.sent "GET") eq_refl).
Defined.

(** A GET answered with 503: the call throws, and the response object
    created for it has no payload. *)
Lemma failed_call_leaves_response_undecorated_witness :
  (fst (Request._fetchWithLogging
          (G := Stub.globals (inr (Response.mk 503 (inr Stub.person))))
          (Request.mk Stub.accept) "/people/1" 1%positive
          (Stub.sent_world "GET"))
     = Throw (ThrowResponseError
                (ResponseError.mk (Some 1%positive) "Server Error" None)) /\
   responseHeap
     (snd (Request._fetchWithLogging
             (G := Stub.globals (inr (Response.mk 503 (inr Stub.person))))
             (Request.mk Stub.accept) "/people/1" 1%positive
             (Stub.sent_world "GET"))) !! 1%positive
     = Some (JsonapiResponse.mk (Response.mk 503 (inr Stub.person)) None)) /\
  (responseHeap (Stub.sent_world "GET") !! 1%positive
     = Some (JsonapiResponse.mk (Response.mk 503 (inr Stub.person)) None) \/
   (1%positive = next_response (Stub.sent_world "GET") /\
    JsonapiResponse.jsonPayload
      (JsonapiResponse.mk (Response.mk 503 (inr Stub.person)) None) = None)).
Proof.
  split; [split; reflexivity|].
  exact (failed_call_leaves_response_undecorated
           (G := Stub.globals (inr (Response.mk 503 (inr Stub.person))))
           (Request.mk Stub.accept) "/people/1" 1%positive
           (Stub.sent_world "GET")
           (ThrowResponseError
              (ResponseError.mk (Some 1%positive) "Server Error" None))
           1%positive
           (JsonapiResponse.mk (Response.mk 503 (inr Stub.person)) None)
           eq_refl eq_refl).
Defined.


(** A GET that the transport fails with a message. *)
Lemma response_error_message_never_empty_witness :
  fst (Request._fetchWithLogging (G := Stub.globals (inl Stub.offline))
         (Request.mk Stub.accept) "/people/1" 1%positive
         (Stub.sent_world "GET"))
    = Throw (ThrowResponseError
               (ResponseError.mk None "Failed to fetch" (Some Stub.offline))) /\
  "Failed to fetch" <> "".
Proof.
  split; [reflexivity|].
  exact (response_error_message_never_empty
           (G := Stub.globals (inl Stub.offline))
           (Request.mk Stub.accept) "/people/1" 1%positive
           (Stub.sent_world "GET")
           (ResponseError.mk None "Failed to fetch" (Some Stub.offline))
           eq_refl).
Defined.

(** A PATCH behind a before-filter that adds a header: the caller's
    object ends with the method, the body and the header. *)
Lemma verbs_write_only_the_callers_options_witness :
  optionsHeap Stub.world0 !! 1%positive = Some Stub.options0 /\
  optionsHeap
    (snd (Request.patch
            (G := Stub.globals (inr (Response.mk 200 (inr Stub.person))))
            (Request.mk Stub.authorize) "/people/1" Stub.person 1%positive
            Stub.world0))
  = <[ 1%positive :=
         RequestInit.mk (Some "PATCH") (Some "[document]")
           [("Authorization", "Bearer t0k3n");
            ("Accept", "application/vnd.api+json")]
           [("credentials", "same-origin")] ]> (optionsHeap Stub.world0).
Proof.
  split; [reflexivity|].
  destruct (verbs_write_only_the_callers_options
              (G := Stub.globals (inr (Response.mk 200 (inr Stub.person))))
              (Request.mk Stub.authorize) "/people/1" Stub.person 1%positive
              Stub.world0 Stub.options0 eq_refl)
    as (_ & _ & _ & Hpatch).
  exact Hpatch.
Defined.

(** A GET behind a before-filter that adds a header: the transport
    receives the header. *)
Lemma transport_receives_options_as_hook_left_them_witness :
  (optionsHeap (Stub.sent_world "GET") !! 1%positive = Some (Stub.sent "GET") /\
   MiddlewareStack.beforeFetch Stub.authorize "/people/1" (Stub.sent "GET") =
     (Stub.with_token (Stub.sent "GET"), None)) /\
  exists rest,
    trace (snd (Request._fetchWithLogging
                  (G := Stub.globals (inr (Response.mk 200 (inr Stub.person))))
                  (Request.mk Stub.authorize) "/people/1" 1%positive
                  (Stub.sent_world "GET"))) =
    [LoggerInfo "GET: /people/1";
     BeforeFetch "/people/1" (Stub.sent "GET");
     Fetch "/people/1" (Stub.with_token (Stub.sent "GET"))] ++ rest.
Proof.
  split; [split; reflexivity|].
  exact (transport_receives_options_as_hook_left_them
           (G := Stub.globals (inr (Response.mk 200 (inr Stub.person))))
           (Request.mk Stub.authorize) "/people/1" 1%positive
           (Stub.sent_world "GET") (Stub.sent "GET")
           (Stub.with_token (Stub.sent "GET")) eq_refl eq_refl).
Defined.

(** A POST, then a GET on the same options object, behind hooks that let
    every call through. *)
Lemma get_after_post_sends_the_post_body_witness :
  (optionsHeap Stub.world0 !! 1%positive = Some Stub.options0 /\
   MiddlewareStack.beforeFetch Stub.accept "/people/1"
     (RequestInit.mk (Some "GET") (Some "[document]")
        [("Accept", "application/vnd.api+json")]
        [("credentials", "same-origin")])
   = (RequestInit.mk (Some "GET") (Some "[document]")
        [("Accept", "application/vnd.api+json")]
        [("credentials", "same-origin")], None)) /\
  In (Fetch "/people/1"
        (RequestInit.mk (Some "GET") (Some "[document]")
           [("Accept", "application/vnd.api+json")]
           [("credentials", "same-origin")]))
    (trace (snd (Request.get
                   (G := Stub.globals (inr (Response.mk 201 (inr Stub.person))))
                   (Request.mk Stub.accept) "/people/1" 1%positive
                   (snd (Request.post
                           (G := Stub.globals
                                   (inr (Response.mk 201 (inr Stub.person))))
                           (Request.mk Stub.accept) "/people" Stub.person
                           1%positive Stub.world0))))).
Proof.
  split; [split; reflexivity|].
  exact (get_after_post_sends_the_post_body
           (G := Stub.globals (inr (Response.mk 201 (inr Stub.person))))
           (Request.mk Stub.accept) "/people" "/people/1" Stub.person
           1%positive Stub.world0 Stub.options0 eq_refl eq_refl eq_refl).
Defined.

(** A 404 with a document of errors, classified for a DELETE and for a
    GET. *)
Lemma classification_ignores_method_outside_short_circuit_witness :
  (optionsHeap
     (mkWorld {[ 1%positive := Stub.sent "DELETE" ]}
        {[ 1%positive :=
             JsonapiResponse.mk (Response.mk 404 (inr Stub.validation_errors))
               None ]} [])
     !! 1%positive = Some (Stub.sent "DELETE") /\
   404%Z <> 200%Z /\ 404%Z <> 202%Z /\ 404%Z <> 204%Z) /\
  fst (Request._handleResponse (Request.mk Stub.accept) 1%positive 1%positive
         (mkWorld
            (<[ 1%positive := Stub.sent "GET" ]>
               {[ 1%positive := Stub.sent "DELETE" ]})
            {[ 1%positive :=
                 JsonapiResponse.mk (Response.mk 404 (inr Stub.validation_errors))
                   None ]} []))
  = fst (Request._handleResponse (Request.mk Stub.accept) 1%positive 1%positive
           (mkWorld {[ 1%positive := Stub.sent "DELETE" ]}
              {[ 1%positive :=
                   JsonapiResponse.mk
                     (Response.mk 404 (inr Stub.validation_errors)) None ]} [])).
Proof.
  assert (H200 : 404%Z <> 200%Z) by discriminate.
  assert (H202 : 404%Z <> 202%Z) by discriminate.
  assert (H204 : 404%Z <> 204%Z) by discriminate.
  split; [repeat split; assumption|].
  exact (proj1 (classification_ignores_method_outside_short_circuit
           (Request.mk Stub.accept)
           (mkWorld {[ 1%positive := Stub.sent "DELETE" ]}
              {[ 1%positive :=
                   JsonapiResponse.mk
                     (Response.mk 404 (inr Stub.validation_errors)) None ]} [])
           1%positive 1%positive (Stub.sent "DELETE") (Stub.sent "GET")
           (JsonapiResponse.mk (Response.mk 404 (inr Stub.validation_errors)) None)
           eq_refl eq_refl H200 H202 H204)).
Defined.

(** A GET on an options object in which the caller had written another
    method. *)
Lemma verbs_log_their_own_name_witness :
  optionsHeap (Stub.sent_world "DELETE") !! 1%positive
    = Some (Stub.sent "DELETE") /\
  exists rest,
    trace (snd (Request.get
                  (G := Stub.globals (inr (Response.mk 200 (inr Stub.person))))
                  (Request.mk Stub.accept) "/people/1" 1%positive
                  (Stub.sent_world "DELETE"))) =
    [] ++ LoggerInfo "GET: /people/1" :: rest.
Proof.
  split; [reflexivity|].
  destruct (verbs_log_their_own_name
              (G := Stub.globals (inr (Response.mk 200 (inr Stub.person))))
              (Request.mk Stub.accept) "/people/1" Stub.person 1%positive
              (Stub.sent_world "DELETE") (Stub.sent "DELETE") eq_refl)
    as (Hget & _).
  exact Hget.
Defined.

(** A GET answered with 503: the error carries the response object. *)
Lemma response_error_has_no_response_iff_transport_failed_witness :
  (optionsHeap (Stub.sent_world "GET") !! 1%positive = Some (Stub.sent "GET") /\
   MiddlewareStack.beforeFetch Stub.accept "/people/1" (Stub.sent "GET") =
     (Stub.sent "GET", None) /\
   fst (Request._fetchWithLogging
          (G := Stub.globals (inr (Response.mk 503 (inr Stub.person))))
          (Request.mk Stub.accept) "/people/1" 1%positive
          (Stub.sent_world "GET"))
     = Throw (ThrowResponseError
                (ResponseError.mk (Some 1%positive) "Server Error" None))) /\
  exists resp,
    fetch (Globals := Stub.globals (inr (Response.mk 503 (inr Stub.person))))
      "/people/1" (Stub.sent "GET") = inr resp /\
    responseHeap
      (snd (Request._fetchWithLogging
              (G := Stub.globals (inr (Response.mk 503 (inr Stub.person))))
              (Request.mk Stub.accept) "/people/1" 1%positive
              (Stub.sent_world "GET"))) !! 1%positive
    = Some (JsonapiResponse.mk resp None).
Proof.
  split; [repeat split|].
  destruct (response_error_has_no_response_iff_transport_failed
              (G := Stub.globals (inr (Response.mk 503 (inr Stub.person))))
              (Request.mk Stub.accept) "/people/1" 1%positive
              (Stub.sent_world "GET") (Stub.sent "GET") (Stub.sent "GET")
              (ResponseError.mk (Some 1%positive) "Server Error" None)
              eq_refl eq_refl eq_refl)
    as [[Hnone _] | [_ Hdelivered]].
  - discriminate Hnone.
  - exact Hdelivered.
Defined.
